(** * RaterHub History Analyzer: the extraction pipeline of [main.py]

    The script reads a browser-history table, keeps the rows of one month
    whose URL mentions RaterHub, extracts the task identifier of each URL,
    converts the GMT+7 wall-clock time of the visit to US Pacific time,
    removes duplicated task identifiers and sorts the result by time.

    The development follows the script from top to bottom:
    - characters, decimal fields and the proleptic Gregorian calendar;
    - the library calls the script relies on ([pd.to_datetime],
      [datetime.strptime], [strftime], [str.contains], [re.search],
      [dropna], [drop_duplicates], [sort_values]);
    - the script itself ([extract_task_id], [convert_to_pacific] and the
      body of the [if uploaded_file is not None] block, here [extractor]);
    - the properties of the pipeline.

    Text is modelled on ASCII characters: on them the regular-expression
    class [\d] is the ten digits 0-9, [\s] is the ASCII white space, and
    case folding only touches the letters A-Z. *)

From Stdlib Require Import ZArith List String Ascii Bool Lia.
From Stdlib Require Import Sorted Permutation.
Import ListNotations.

Local Open Scope string_scope.
Local Open Scope Z_scope.

(** ** Characters and decimal fields *)

Module Chars.

Definition code (c : ascii) : Z := Z.of_nat (nat_of_ascii c).

(** [\d] on ASCII text. *)
Definition is_digit (c : ascii) : bool :=
  (48 <=? code c) && (code c <=? 57).

(** [\s] on ASCII text: tab, line feed, vertical tab, form feed, carriage
    return, the four separators 28-31 and the space. *)
Definition is_space (c : ascii) : bool :=
  ((9 <=? code c) && (code c <=? 13))
  || ((28 <=? code c) && (code c <=? 32)).

Definition digit_val (c : ascii) : Z := code c - 48.

Definition digit_char (d : Z) : ascii := ascii_of_nat (Z.to_nat (48 + d)).

(** Lower-case folding of one character, as [re.IGNORECASE] does on
    the letters A-Z. *)
Definition lower (c : ascii) : ascii :=
  if (65 <=? code c) && (code c <=? 90)
  then ascii_of_nat (nat_of_ascii c + 32)
  else c.

Fixpoint lower_string (s : string) : string :=
  match s with
  | EmptyString => EmptyString
  | String c r => String (lower c) (lower_string r)
  end.

(** Zero-padded decimal rendering on two and on four columns
    ([%m], [%d], [%H], [%M], [%S] and [%Y]). *)
Definition pad2 (n : Z) : string :=
  String (digit_char (n / 10 mod 10)) (String (digit_char (n mod 10)) EmptyString).

Definition pad4 (n : Z) : string :=
  String (digit_char (n / 1000 mod 10))
    (String (digit_char (n / 100 mod 10)) (pad2 n)).

End Chars.

(** ** Calendar *)

Module Calendar.

Definition is_leap (y : Z) : bool :=
  ((y mod 4 =? 0) && negb (y mod 100 =? 0)) || (y mod 400 =? 0).

Definition days_in_month (y m : Z) : Z :=
  if m =? 2 then (if is_leap y then 29 else 28)
  else if (m =? 4) || (m =? 6) || (m =? 9) || (m =? 11) then 30
  else 31.

(** Number of days from 1970-01-01 to the civil date [y]-[m]-[d]. *)
Definition days_from_civil (y m d : Z) : Z :=
  let y' := if m <=? 2 then y - 1 else y in
  let era := y' / 400 in
  let yoe := y' - era * 400 in
  let mp := if m <=? 2 then m + 9 else m - 3 in
  let doy := (153 * mp + 2) / 5 + d - 1 in
  let doe := yoe * 365 + yoe / 4 - yoe / 100 + doy in
  era * 146097 + doe - 719468.

(** The civil date [(y, m, d)] that lies [z] days after 1970-01-01. *)
Definition civil_from_days (z : Z) : Z * Z * Z :=
  let z' := z + 719468 in
  let era := z' / 146097 in
  let doe := z' - era * 146097 in
  let yoe := (doe - doe / 1460 + doe / 36524 - doe / 146096) / 365 in
  let doy := doe - (365 * yoe + yoe / 4 - yoe / 100) in
  let mp := (5 * doy + 2) / 153 in
  let d := doy - (153 * mp + 2) / 5 + 1 in
  let m := if mp <? 10 then mp + 3 else mp - 9 in
  let y := yoe + era * 400 in
  ((if m <=? 2 then y + 1 else y), m, d).

(** Day of the week of day number [z], Sunday being 0. *)
Definition weekday (z : Z) : Z := (z + 4) mod 7.

(** Day of the month of the [n]-th Sunday (n = 1, 2, ...) of month [m]. *)
Definition nth_sunday (n y m : Z) : Z :=
  1 + (7 - weekday (days_from_civil y m 1)) mod 7 + 7 * (n - 1).

End Calendar.

(** ** Naive timestamps

    One record stands for the three kinds of naive time stamps of the
    script: the [Timestamp] cells that [pd.to_datetime] produces, the
    [datetime] that [strptime] returns, and the wall-clock reading of an
    aware [datetime] in its own zone. *)

Record datetime : Type := mkDatetime {
  year : Z; month : Z; day : Z; hour : Z; minute : Z; second : Z
}.

Definition seconds_of (t : datetime) : Z :=
  Calendar.days_from_civil (year t) (month t) (day t) * 86400
  + hour t * 3600 + minute t * 60 + second t.

Definition datetime_of_seconds (s : Z) : datetime :=
  let days := s / 86400 in
  let r := s mod 86400 in
  let '(y, m, d) := Calendar.civil_from_days days in
  mkDatetime y m d (r / 3600) (r mod 3600 / 60) (r mod 60).

(** [strftime('%Y-%m-%d')] and [strftime('%Y-%m-%d %H:%M:%S')], for the
    years 1000 to 9999, which [%Y] shows on four columns; the time stamps
    of pandas are among them. *)
Definition strftime_date (t : datetime) : string :=
  Chars.pad4 (year t) ++ "-" ++ Chars.pad2 (month t) ++ "-"
  ++ Chars.pad2 (day t).

Definition strftime (t : datetime) : string :=
  strftime_date t ++ " " ++ Chars.pad2 (hour t) ++ ":"
  ++ Chars.pad2 (minute t) ++ ":" ++ Chars.pad2 (second t).

(** Chronological comparison of two naive time stamps: field by field,
    from the year down to the second. *)
Definition fields (t : datetime) : list Z :=
  [year t; month t; day t; hour t; minute t; second t].

Fixpoint lex_compare (l1 l2 : list Z) : comparison :=
  match l1, l2 with
  | x :: l1', y :: l2' =>
      match x ?= y with
      | Eq => lex_compare l1' l2'
      | c => c
      end
  | _, _ => Eq
  end.

Definition datetime_compare (a b : datetime) : comparison :=
  lex_compare (fields a) (fields b).

Definition datetime_leb (a b : datetime) : bool :=
  match datetime_compare a b with Gt => false | _ => true end.

(** ** Library calls *)

(** A cell of the uploaded table that holds text; [None] is the missing
    value (NaN) that [pd.read_csv] puts where the file has nothing.  The
    columns of the model are columns of text with missing values; a
    column in which every cell is missing is the one column of numbers
    that it has ([str_accessor] below). *)
Definition cell : Type := option string.

(** How an f-string shows a cell. *)
Definition str_of_cell (c : cell) : string :=
  match c with Some s => s | None => "nan" end.

Module Parse.

Definition bind {A B : Type} (o : option A) (f : A -> option B) : option B :=
  match o with Some a => f a | None => None end.

Notation "x <- e ;; k" := (bind e (fun x => k))
  (at level 61, e at next level, right associativity).
Notation "' p <- e ;; k" := (bind e (fun p => k))
  (at level 61, p pattern, e at next level, right associativity).

(** One given character. *)
Definition expect (c : ascii) (s : string) : option string :=
  match s with
  | String a r => if Ascii.eqb a c then Some r else None
  | EmptyString => None
  end.

(** Exactly two digits whose value lies in [lo..hi]. *)
Definition two_digits (lo hi : Z) (s : string) : option (Z * string) :=
  match s with
  | String a (String b r) =>
      if Chars.is_digit a && Chars.is_digit b then
        let v := 10 * Chars.digit_val a + Chars.digit_val b in
        if (lo <=? v) && (v <=? hi) then Some (v, r) else None
      else None
  | _ => None
  end.

(** One digit whose value is at least [lo]. *)
Definition one_digit (lo : Z) (s : string) : option (Z * string) :=
  match s with
  | String a r =>
      if Chars.is_digit a && (lo <=? Chars.digit_val a)
      then Some (Chars.digit_val a, r) else None
  | EmptyString => None
  end.

(** Exactly four digits. *)
Definition four_digits (s : string) : option (Z * string) :=
  '(hi, s) <- two_digits 0 99 s ;;
  '(lo, s) <- two_digits 0 99 s ;;
  Some (100 * hi + lo, s).

(** The alternatives of a [strptime] field: the two-digit forms first,
    then the one-digit form. *)
Definition field (lo hi lo1 : Z) (s : string) : option (Z * string) :=
  match two_digits lo hi s with
  | Some r => Some r
  | None => one_digit lo1 s
  end.

Fixpoint skip_spaces (s : string) : string :=
  match s with
  | String a r => if Chars.is_space a then skip_spaces r else s
  | EmptyString => EmptyString
  end.

(** [\s+]: one white-space character at least. *)
Definition spaces1 (s : string) : option string :=
  match s with
  | String a r => if Chars.is_space a then Some (skip_spaces r) else None
  | EmptyString => None
  end.

(** [strip_prefix p s] is what follows [p] when [s] starts with [p]. *)
Fixpoint strip_prefix (p s : string) : option string :=
  match p with
  | EmptyString => Some s
  | String a p' =>
      match s with
      | String b s' => if Ascii.eqb a b then strip_prefix p' s' else None
      | EmptyString => None
      end
  end.

(** [contains p s]: [p] occurs in [s]. *)
Fixpoint contains (p s : string) : bool :=
  match strip_prefix p s with
  | Some _ => true
  | None =>
      match s with
      | String _ s' => contains p s'
      | EmptyString => false
      end
  end.

(** The longest run of digits that starts [s]. *)
Fixpoint span_digits (s : string) : string :=
  match s with
  | String a r =>
      if Chars.is_digit a then String a (span_digits r) else EmptyString
  | EmptyString => EmptyString
  end.

End Parse.

Import Parse.

(** *** pandas *)

(** The range of a nanosecond [Timestamp], in whole seconds since the
    epoch: 1677-09-21 00:12:44 to 2262-04-11 23:47:16. *)
Definition timestamp_in_bounds (t : datetime) : bool :=
  (-9223372036 <=? seconds_of t) && (seconds_of t <=? 9223372036).

Definition valid_datetime (t : datetime) : bool :=
  (1 <=? month t) && (month t <=? 12)
  && (1 <=? day t) && (day t <=? Calendar.days_in_month (year t) (month t))
  && (hour t <=? 23) && (minute t <=? 59) && (second t <=? 59).

(** The time of day that may follow the date: nothing (midnight), or a
    space and [HH:MM:SS]. *)
Definition iso_time_of_day (s : string) : option (Z * Z * Z) :=
  match s with
  | EmptyString => Some (0, 0, 0)
  | _ =>
      s <- expect " " s ;;
      '(h, s) <- two_digits 0 99 s ;;
      s <- expect ":" s ;;
      '(mi, s) <- two_digits 0 99 s ;;
      s <- expect ":" s ;;
      '(se, s) <- two_digits 0 99 s ;;
      match s with EmptyString => Some (h, mi, se) | _ => None end
  end.

(** [pd.to_datetime] on one text value, for the ISO forms [YYYY-MM-DD]
    and [YYYY-MM-DD HH:MM:SS] with every field zero-padded.  [None] is the
    exception pandas raises on text it cannot read as a date.  pandas
    reads further spellings of a date, and reads a column in the form of
    its first date; the model is exact on the columns whose dates are all
    written in the same one of the two forms, and treats every other
    spelling as unreadable. *)
Definition to_datetime (s : string) : option datetime :=
  '(y, s) <- four_digits s ;;
  s <- expect "-" s ;;
  '(m, s) <- two_digits 0 99 s ;;
  s <- expect "-" s ;;
  '(d, s) <- two_digits 0 99 s ;;
  '(h, mi, se) <- iso_time_of_day s ;;
  let t := mkDatetime y m d h mi se in
  if valid_datetime t && timestamp_in_bounds t then Some t else None.

(** [pd.to_datetime] on a column cell: a missing value becomes [NaT],
    here the inner [None]. *)
Definition to_datetime_cell (c : cell) : option (option datetime) :=
  match c with
  | None => Some None
  | Some s => t <- to_datetime s ;; Some (Some t)
  end.

(** A whole column: the first unreadable cell raises. *)
Fixpoint traverse {A B : Type} (f : A -> option B) (l : list A)
  : option (list B) :=
  match l with
  | [] => Some []
  | a :: l' => b <- f a ;; bs <- traverse f l' ;; Some (b :: bs)
  end.

(** [Series.str.contains(pat, case=False, na=False)] on one cell of a
    column of text, for a pattern without regular-expression operators;
    whether the column is a column of text is [str_accessor] below. *)
Definition str_contains_nocase (pat : string) (c : cell) : bool :=
  match c with
  | None => false
  | Some s => contains (Chars.lower_string pat) (Chars.lower_string s)
  end.

(** [drop_duplicates(subset=[key])]: a row is dropped when an earlier row
    of the table has the same key. *)
Fixpoint drop_duplicates_from {A : Type} (key : A -> string)
  (seen : list string) (l : list A) : list A :=
  match l with
  | [] => []
  | a :: l' =>
      if existsb (String.eqb (key a)) seen
      then drop_duplicates_from key seen l'
      else a :: drop_duplicates_from key (key a :: seen) l'
  end.

Definition drop_duplicates {A : Type} (key : A -> string) (l : list A)
  : list A :=
  drop_duplicates_from key [] l.

(** [sort_values(by)] on a time-stamp column, ascending.  The model is an
    insertion sort that keeps rows of equal time in their order; pandas
    does not promise an order among them. *)
Fixpoint insert_by {A : Type} (key : A -> datetime) (a : A) (l : list A)
  : list A :=
  match l with
  | [] => [a]
  | b :: l' =>
      if datetime_leb (key a) (key b) then a :: l
      else b :: insert_by key a l'
  end.

Fixpoint sort_values {A : Type} (key : A -> datetime) (l : list A) : list A :=
  match l with
  | [] => []
  | a :: l' => insert_by key a (sort_values key l')
  end.

(** *** datetime.strptime *)

Inductive result (A : Type) : Type :=
| Ok (a : A)
| Raised (msg : string).
Arguments Ok {A} a.
Arguments Raised {A} msg.

(** The regular expression that [strptime] builds from the format
    ['%Y-%m-%d %H:%M:%S'], matched at the start of the text.  The result is
    the six fields and the text the match leaves. *)
Definition strptime_match (s : string) : option (datetime * string) :=
  '(y, s) <- four_digits s ;;
  s <- expect "-" s ;;
  '(m, s) <- field 1 12 1 s ;;
  s <- expect "-" s ;;
  '(d, s) <- match field 1 31 1 s with
             | Some r => Some r
             | None => s <- expect " " s ;; one_digit 1 s
             end ;;
  s <- spaces1 s ;;
  '(h, s) <- field 0 23 0 s ;;
  s <- expect ":" s ;;
  '(mi, s) <- field 0 59 0 s ;;
  s <- expect ":" s ;;
  '(se, s) <- field 0 61 0 s ;;
  Some (mkDatetime y m d h mi se, s).

(** [datetime.strptime(data, '%Y-%m-%d %H:%M:%S')] with the [ValueError]s
    it raises.  The text is quoted as [repr] quotes text without quotes or
    escapes. *)
Definition strptime (data : string) : result datetime :=
  match strptime_match data with
  | None =>
      Raised ("time data '" ++ data
              ++ "' does not match format '%Y-%m-%d %H:%M:%S'")
  | Some (t, rest) =>
      match rest with
      | String _ _ => Raised ("unconverted data remains: " ++ rest)
      | EmptyString =>
          if year t =? 0 then Raised "year 0 is out of range"
          else if Calendar.days_in_month (year t) (month t) <? day t
          then Raised "day is out of range for month"
          else if 59 <? second t then Raised "second must be in 0..59"
          else Ok t
      end
  end.

(** *** re.search *)

(** The pattern [taskIds=(\d+)] matched at the start of [s]: the group. *)
Definition match_task_ids (s : string) : option string :=
  match strip_prefix "taskIds=" s with
  | None => None
  | Some r =>
      match span_digits r with
      | EmptyString => None
      | ds => Some ds
      end
  end.

(** [re.search(r'taskIds=(\d+)', s)]: the group of the leftmost match. *)
Fixpoint re_search_task_ids (s : string) : option string :=
  match match_task_ids s with
  | Some g => Some g
  | None =>
      match s with
      | String _ s' => re_search_task_ids s'
      | EmptyString => None
      end
  end.

(** ** The script *)

(** A row of the uploaded table: the six required columns. *)
Record HistoryRecord : Type := mkHistoryRecord {
  row_order : cell;
  row_id : cell;
  row_date : cell;
  row_time : cell;
  row_title : cell;
  row_url : cell
}.

(** The table [pd.read_csv] returns: the column labels of the file and
    its rows. *)
Record DataFrame : Type := mkDataFrame {
  columns : list string;
  records : list HistoryRecord
}.

(** A row of [raterhub_df]: the month mask leaves no [NaT] and the URL mask
    ([na=False]) leaves no missing URL, so the date and the URL are there. *)
Record Visit : Type := mkVisit {
  visit_date : datetime;
  visit_time : cell;
  visit_url : string
}.

(** A row of [raterhub_df] once the columns [task_id] and [pacific_time]
    are added. *)
Record TaskRow : Type := mkTaskRow {
  visit : Visit;
  task_id : option string;
  pacific_time : string
}.

(** A row of [result_df], with the columns ['Date (Pacific Time)'], ['URL']
    and ['Task ID'].  [A] is the type of the first column: text, then time
    stamps between the second [pd.to_datetime] and the last [strftime]. *)
Record ResultRow (A : Type) : Type := mkResultRow {
  Date_Pacific : A;
  URL : string;
  Task_ID : string
}.
Arguments mkResultRow {A} _ _ _.
Arguments Date_Pacific {A} _.
Arguments URL {A} _.
Arguments Task_ID {A} _.

(** What the page shows at the end of a run. *)
Inductive Outcome : Type :=
| SchemaError
    (** [st.error]: the uploaded file is missing required columns *)
| Failed
    (** [except Exception]: an error occurred *)
| NoMatches
    (** [st.warning]: no RaterHub URLs found for the month *)
| Results (table : list (ResultRow string)) (total_tasks total_visits : nat)
    (** the table, its download and the statistics *).

Definition months : list string :=
  [ "January"; "February"; "March"; "April"; "May"; "June";
    "July"; "August"; "September"; "October"; "November"; "December" ].

Definition required_columns : list string :=
  [ "order"; "id"; "date"; "time"; "title"; "url" ].

(** [l.index(x)]; [None] is the [ValueError] of a value not in the list. *)
Fixpoint list_index (x : string) (l : list string) : option Z :=
  match l with
  | [] => None
  | y :: l' =>
      if String.eqb y x then Some 0
      else i <- list_index x l' ;; Some (i + 1)
  end.

(** [all(col in df.columns for col in required_columns)] *)
Definition has_required_columns (df : DataFrame) : bool :=
  forallb (fun col => existsb (String.eqb col) (columns df)) required_columns.

Definition extract_task_id (url : string) : option string :=
  re_search_task_ids url.

(** The mask of [filtered_df]: a comparison with [NaT] is false. *)
Definition in_month (month_num selected_year : Z)
  (r : option datetime * HistoryRecord) : option (datetime * HistoryRecord) :=
  match fst r with
  | Some d =>
      if (month d =? month_num) && (year d =? selected_year)
      then Some (d, snd r) else None
  | None => None
  end.

(** The mask of [raterhub_df]. *)
Definition is_raterhub (r : datetime * HistoryRecord) : option Visit :=
  if str_contains_nocase "raterhub" (row_url (snd r)) then
    match row_url (snd r) with
    | Some u => Some (mkVisit (fst r) (row_time (snd r)) u)
    | None => None
    end
  else None.

Fixpoint filter_map {A B : Type} (f : A -> option B) (l : list A) : list B :=
  match l with
  | [] => []
  | a :: l' =>
      match f a with
      | Some b => b :: filter_map f l'
      | None => filter_map f l'
      end
  end.

(** [result_df.dropna(subset=['Task ID'])] after the projection on the
    three result columns. *)
Definition dropna (r : TaskRow) : option (ResultRow string) :=
  match task_id r with
  | Some t => Some (mkResultRow (pacific_time r) (visit_url (visit r)) t)
  | None => None
  end.

(** The column ['Date (Pacific Time)'] through a function that may raise. *)
Definition set_date {A B : Type} (f : A -> option B) (r : ResultRow A)
  : option (ResultRow B) :=
  d <- f (Date_Pacific r) ;; Some (mkResultRow d (URL r) (Task_ID r)).

Definition render (r : ResultRow datetime) : ResultRow string :=
  mkResultRow (strftime (Date_Pacific r)) (URL r) (Task_ID r).

(** [filtered_df]: the rows of the selected month and year, once the column
    [date] is parsed. *)
Definition filtered_df (month_num selected_year : Z)
  (dates : list (option datetime)) (df : DataFrame)
  : list (datetime * HistoryRecord) :=
  filter_map (in_month month_num selected_year) (combine dates (records df)).

(** [raterhub_df]: the rows of [filtered_df] whose URL mentions RaterHub. *)
Definition raterhub_df (filtered : list (datetime * HistoryRecord))
  : list Visit :=
  filter_map is_raterhub filtered.

(** [Series.str]: the accessor of a column of text.  A column of one row
    at least whose cells are all missing is read as a column of numbers
    ([float64]), on which [.str] raises [AttributeError]; a column
    without rows, and a column that has a text, are columns of text.
    Masking the rows keeps the type of the column. *)
Definition str_accessor (column : list cell) : bool :=
  match column with
  | [] => true
  | _ :: _ =>
      existsb (fun c => match c with Some _ => true | None => false end)
        column
  end.

(** From [month_num = ...] to [raterhub_df]; [None] is an exception, of
    [months.index], of [pd.to_datetime], or of [.str] on the column of
    the URLs. *)
Definition select_raterhub (df : DataFrame) (selected_month : string)
  (selected_year : Z) : option (list Visit) :=
  i <- list_index selected_month months ;;
  let month_num := i + 1 in
  dates <- traverse to_datetime_cell (map row_date (records df)) ;;
  if str_accessor (map row_url (records df))
  then Some (raterhub_df (filtered_df month_num selected_year dates df))
  else None.

(** [result_df] before the time stamps are parsed: the three result
    columns of the rows that have a task identifier. *)
Definition project_and_clean (raterhub : list TaskRow)
  : list (ResultRow string) :=
  filter_map dropna raterhub.

Section Pipeline.

(** The two zones come from the time-zone tables of [pytz], which are
    data outside the script.  [gmt7_utcoffset t] is the offset from UTC,
    in seconds, that ['Asia/Bangkok'] gives the wall-clock time [t]
    ([localize]); [pacific_utcoffset u] is the offset that ['US/Pacific']
    has at [u] seconds after the epoch ([astimezone]). *)
Variable gmt7_utcoffset : datetime -> Z.
Variable pacific_utcoffset : Z -> Z.

(** A [datetime] holds the years 1 to 9999; arithmetic that leaves them
    raises [OverflowError]. *)
Definition convert_to_pacific (date : datetime) (time : cell) : string :=
  let dt_str := strftime_date date ++ " " ++ str_of_cell time in
  match strptime dt_str with
  | Raised e => "Error converting time: " ++ e
  | Ok dt_gmt7 =>
      let utc := seconds_of dt_gmt7 - gmt7_utcoffset dt_gmt7 in
      let dt_pacific := datetime_of_seconds (utc + pacific_utcoffset utc) in
      if (1 <=? year dt_pacific) && (year dt_pacific <=? 9999)
      then strftime dt_pacific
      else "Error converting time: date value out of range"
  end.

(** The columns [task_id] and [pacific_time]. *)
Definition add_columns (v : Visit) : TaskRow :=
  mkTaskRow v (extract_task_id (visit_url v))
    (convert_to_pacific (visit_date v) (visit_time v)).

(** From [result_df = raterhub_df[[...]].copy()] to the statistics. *)
Definition result_df (raterhub : list TaskRow) : Outcome :=
  let result := project_and_clean raterhub in
  match traverse (set_date to_datetime) result with
  | None => Failed
  | Some result =>
      let result := drop_duplicates Task_ID result in
      let result := sort_values Date_Pacific result in
      let result := map render result in
      Results result (List.length result)
        (List.length (project_and_clean raterhub))
  end.

(** The body of [if uploaded_file is not None:], from the table that
    [pd.read_csv] returned. *)
Definition extractor (df : DataFrame) (selected_month : string)
  (selected_year : Z) : Outcome :=
  if negb (has_required_columns df) then SchemaError
  else
    match select_raterhub df selected_month selected_year with
    | None => Failed
    | Some [] => NoMatches
    | Some raterhub => result_df (map add_columns raterhub)
    end.

End Pipeline.

(** *** The zone tables for the years 2007 to 2037

    ['Asia/Bangkok'] has been seven hours ahead of UTC since 1920.
    ['US/Pacific'] is eight hours behind UTC, and seven from the second
    Sunday of March at 10:00 UTC to the first Sunday of November at
    09:00 UTC: the United States rule in force since 2007, which is what the
    tables of [pytz] hold up to 2037. *)

Definition bangkok (_ : datetime) : Z := 7 * 3600.

Definition us_pacific (utc : Z) : Z :=
  let '(y, _, _) := Calendar.civil_from_days (utc / 86400) in
  let dst_start :=
    Calendar.days_from_civil y 3 (Calendar.nth_sunday 2 y 3) * 86400
    + 10 * 3600 in
  let dst_end :=
    Calendar.days_from_civil y 11 (Calendar.nth_sunday 1 y 11) * 86400
    + 9 * 3600 in
  if (dst_start <=? utc) && (utc <? dst_end) then - (7 * 3600)
  else - (8 * 3600).

(** A run of the script with these tables. *)
Definition run : DataFrame -> string -> Z -> Outcome :=
  extractor bangkok us_pacific.

(** ** Vocabulary of the properties *)

(** The time stamps that [strftime] shows on nineteen columns. *)
Definition printable (t : datetime) : Prop :=
  0 <= year t < 10000 /\ 0 <= month t < 100 /\ 0 <= day t < 100
  /\ 0 <= hour t < 100 /\ 0 <= minute t < 100 /\ 0 <= second t < 100.

(** Two rows in the order of their time stamps. *)
Definition key_le {A : Type} (key : A -> datetime) (a b : A) : Prop :=
  datetime_leb (key a) (key b) = true.

Fixpoint all_digits (s : string) : bool :=
  match s with
  | EmptyString => true
  | String c r => Chars.is_digit c && all_digits r
  end.

Definition starts_with_digit (s : string) : bool :=
  match s with
  | EmptyString => false
  | String c _ => Chars.is_digit c
  end.

(** [g] is the run of digits that follows ["taskIds="] after the prefix
    [p] of [url], and [r] is what follows the run. *)
Definition task_ids_at (url p g r : string) : Prop :=
  url = p ++ "taskIds=" ++ g ++ r
  /\ g <> EmptyString
  /\ all_digits g = true
  /\ starts_with_digit r = false.

(** [url] contains [pat], whatever the case of the letters. *)
Definition contains_nocase (pat url : string) : Prop :=
  exists p m r, url = p ++ m ++ r /\ Chars.lower_string m = pat.

(** The rows of [raterhub_df] that have a task identifier. *)
Definition has_task_id (v : Visit) : bool :=
  match extract_task_id (visit_url v) with
  | Some _ => true
  | None => false
  end.

(** Earliest-first deduplication: no row that reaches the deduplication
    with the task identifier of a row of the table has an earlier Pacific
    time than that row. *)
Definition keeps_earliest (df : DataFrame) (selected_month : string)
  (selected_year : Z) : Prop :=
  forall table total_tasks total_visits raterhub,
    run df selected_month selected_year
    = Results table total_tasks total_visits ->
    select_raterhub df selected_month selected_year = Some raterhub ->
    forall row v,
      In row table ->
      In v (project_and_clean (map (add_columns bangkok us_pacific) raterhub)) ->
      Task_ID v = Task_ID row ->
      String.leb (Date_Pacific row) (Date_Pacific v) = true.

(** ** Sample tables *)

Definition history_row (date time url : string) : HistoryRecord :=
  mkHistoryRecord (Some "1") (Some "1") (Some date) (Some time)
    (Some "Rater Hub") (Some url).

Definition history (rows : list HistoryRecord) : DataFrame :=
  mkDataFrame required_columns rows.

(** One visit on 2024-03-15 at 09:00:00. *)
Definition one_visit : DataFrame :=
  history
    [ history_row "2024-03-15" "09:00:00"
        "https://raterhub.com/x?taskIds=12345" ].

(** Two visits of one task, the later one listed first. *)
Definition later_visit_first : DataFrame :=
  history
    [ history_row "2024-03-15" "10:00:00" "https://raterhub.com/a?taskIds=1";
      history_row "2024-03-15" "09:00:00" "https://raterhub.com/b?taskIds=1" ].

(** Three tasks in five visits, out of order, and a visit of another site
    and one of another month. *)
Definition busy_month : DataFrame :=
  history
    [ history_row "2024-03-20" "08:30:00" "https://raterhub.com/t?taskIds=7";
      history_row "2024-03-15" "10:00:00" "https://raterhub.com/a?taskIds=1";
      history_row "2024-03-16" "23:15:10" "https://www.RaterHub.com/?taskIds=42&x=1";
      history_row "2024-03-15" "09:00:00" "https://raterhub.com/b?taskIds=1";
      history_row "2024-03-21" "08:30:00" "https://raterhub.com/t?taskIds=7";
      history_row "2024-03-17" "12:00:00" "https://example.com/?taskIds=9";
      history_row "2024-04-01" "12:00:00" "https://raterhub.com/?taskIds=5" ].

(** A well-formed visit and one whose time of day is not [HH:MM:SS]. *)
Definition malformed_time : DataFrame :=
  history
    [ history_row "2024-03-15" "09:00:00" "https://raterhub.com/x?taskIds=1";
      history_row "2024-03-16" "9am" "https://raterhub.com/x?taskIds=2" ].

(** A RaterHub page without a task identifier. *)
Definition no_task_id : DataFrame :=
  history [ history_row "2024-03-15" "09:00:00" "https://raterhub.com/nope" ].

(** A row of the month without a URL: the column of the URLs has no
    text. *)
Definition missing_urls : DataFrame :=
  history
    [ mkHistoryRecord (Some "1") (Some "1") (Some "2024-03-15")
        (Some "09:00:00") (Some "New Tab") None ].

(** No RaterHub page at all. *)
Definition no_raterhub : DataFrame :=
  history [ history_row "2024-03-15" "09:00:00" "https://example.com/" ].

(** The parameter name in capitals. *)
Definition capital_parameter : DataFrame :=
  history
    [ history_row "2024-03-15" "09:00:00"
        "https://raterhub.com/x?TASKIDS=123" ].

(** The column [title] is not in the file; a date is not a date. *)
Definition missing_title : DataFrame :=
  mkDataFrame [ "order"; "id"; "date"; "time"; "url" ]
    [ history_row "not a date" "09:00:00" "https://raterhub.com/x?taskIds=1" ].

(** A seventh column. *)
Definition extra_column : DataFrame :=
  mkDataFrame (required_columns ++ [ "visit_count" ])%list (records one_visit).

(** The tables that the runs on [one_visit], [later_visit_first] and
    [busy_month] show for March 2024, and the row that the run on
    [later_visit_first] drops. *)
Definition one_visit_row : ResultRow string :=
  mkResultRow "2024-03-14 19:00:00" "https://raterhub.com/x?taskIds=12345"
    "12345".

Definition later_row : ResultRow string :=
  mkResultRow "2024-03-14 20:00:00" "https://raterhub.com/a?taskIds=1" "1".

Definition earlier_row : ResultRow string :=
  mkResultRow "2024-03-14 19:00:00" "https://raterhub.com/b?taskIds=1" "1".

Definition busy_table : list (ResultRow string) :=
  [ later_row;
    mkResultRow "2024-03-16 09:15:10"
      "https://www.RaterHub.com/?taskIds=42&x=1" "42";
    mkResultRow "2024-03-19 18:30:00" "https://raterhub.com/t?taskIds=7" "7" ].

(** ** The statistics *)

(** [if total_visits > total_tasks:] the number of duplicate entries that
    the page reports; [None] when the line is not written. *)
Definition duplicates_removed (total_tasks total_visits : nat) : option nat :=
  if (total_tasks <? total_visits)%nat
  then Some (total_visits - total_tasks)%nat
  else None.

(** [.dt.date]: the calendar day of a time stamp. *)
Definition date_only (t : datetime) : Z * Z * Z :=
  (year t, month t, day t).

Definition date_compare (a b : Z * Z * Z) : comparison :=
  let '(y, m, d) := a in
  let '(y', m', d') := b in
  lex_compare [y; m; d] [y'; m'; d'].

(** One more row on day [k], in a table of counts whose days ascend. *)
Fixpoint count_in (k : Z * Z * Z) (groups : list (Z * Z * Z * nat))
  : list (Z * Z * Z * nat) :=
  match groups with
  | [] => [(k, 1%nat)]
  | (k', n) :: rest =>
      match date_compare k k' with
      | Eq => (k', S n) :: rest
      | Lt => (k, 1%nat) :: groups
      | Gt => (k', n) :: count_in k rest
      end
  end.

(** [groupby(key).size()]: the number of rows of each key, the keys in
    ascending order. *)
Definition groupby_size (keys : list (Z * Z * Z))
  : list (Z * Z * Z * nat) :=
  fold_left (fun groups k => count_in k groups) keys [].

(** [tasks_by_day], the table under "Tasks by Day": the days of the table
    of tasks, read back from their text, and the number of tasks of each
    day.  [None] is an exception of [pd.to_datetime].  The page draws it
    when there is a task at least; without tasks there is no day. *)
Definition tasks_by_day (table : list (ResultRow string))
  : option (list (Z * Z * Z * nat)) :=
  dates <- traverse (fun r => to_datetime (Date_Pacific r)) table ;;
  Some (groupby_size (map date_only dates)).

(** ** Row by row *)

(** What one row of the uploaded table gives to [raterhub_df]: an
    exception when its date is unreadable ([None]), nothing when a mask
    drops it ([Some None]), or a row. *)
Definition row_visit (month_num selected_year : Z) (r : HistoryRecord)
  : option (option Visit) :=
  od <- to_datetime_cell (row_date r) ;;
  Some match in_month month_num selected_year (od, r) with
       | Some x => is_raterhub x
       | None => None
       end.

Definition select_rows (month_num selected_year : Z)
  (rows : list HistoryRecord) : option (list Visit) :=
  vs <- traverse (row_visit month_num selected_year) rows ;;
  Some (filter_map (fun v => v) vs).

(** Two runs that end the same way and, when they show a table, show the
    same task identifiers and the same two totals. *)
Definition same_summary (a b : Outcome) : Prop :=
  match a, b with
  | SchemaError, SchemaError => True
  | Failed, Failed => True
  | NoMatches, NoMatches => True
  | Results t n v, Results t' n' v' =>
      n = n' /\ v = v'
      /\ forall i, In i (map Task_ID t) <-> In i (map Task_ID t')
  | _, _ => False
  end.

(** ** Days *)

Definition date_lt (a b : Z * Z * Z) : Prop := date_compare a b = Lt.

Definition on_day (k : Z * Z * Z) (t : datetime) : bool :=
  match date_compare (date_only t) k with Eq => true | _ => false end.

(** The number of rows of the table whose Pacific time is on day [k]. *)
Definition tasks_on (k : Z * Z * Z) (table : list (ResultRow string)) : nat :=
  List.length
    (filter (fun r => match to_datetime (Date_Pacific r) with
                      | Some t => on_day k t
                      | None => false
                      end) table).

(** The number of days of a list that are day [k]. *)
Definition days_on (k : Z * Z * Z) (days : list (Z * Z * Z)) : nat :=
  List.length
    (filter (fun d => match date_compare d k with Eq => true | _ => false end)
       days).

(** The total of a table of counts. *)
Definition sum_counts (groups : list (Z * Z * Z * nat)) : nat :=
  fold_right (fun g n => (snd g + n)%nat) 0%nat groups.

(** A table of counts that stands for a list of days: its days ascend, it
    has a count for every day of the list and for no other, and each count
    is the number of times the list has the day. *)
Definition counts_of (groups : list (Z * Z * Z * nat))
  (days : list (Z * Z * Z)) : Prop :=
  StronglySorted date_lt (map fst groups)
  /\ (forall k n, In (k, n) groups -> (0 < n)%nat /\ n = days_on k days)
  /\ (forall d, In d days -> In d (map fst groups))
  /\ sum_counts groups = List.length days.

(** ** Times of day *)

(** The text [HH:MM:SS] of a time of day. *)
Definition clock_text (h mi se : Z) : string :=
  Chars.pad2 h ++ ":" ++ Chars.pad2 mi ++ ":" ++ Chars.pad2 se.

(** The wall-clock time [h:mi:se] on the day of [date]. *)
Definition at_time (date : datetime) (h mi se : Z) : datetime :=
  mkDatetime (year date) (month date) (day date) h mi se.

(** ** Columns that pandas reads as the model does *)

(** The dates of the rows are all written on [YYYY-MM-DD], each the day
    of a time stamp that pandas holds: pandas reads a column of dates in
    the form of its first date, so that a column in which the forms
    differ is not read, whatever its cells are one by one. *)
Definition date_only_cells (rows : list HistoryRecord) : Prop :=
  forall q s, In q rows -> row_date q = Some s ->
    exists t, to_datetime s = Some t /\ s = strftime_date t.

(** A row mentions RaterHub: the column of the URLs is a column of text,
    on which [.str] works. *)
Definition mentions_raterhub (rows : list HistoryRecord) : Prop :=
  exists q, In q rows /\ str_contains_nocase "raterhub" (row_url q) = true.

(** ** More sample tables *)

(** A visit of March and a visit of April. *)
Definition march_visit : HistoryRecord :=
  history_row "2024-03-15" "09:00:00" "https://raterhub.com/x?taskIds=12345".

Definition april_visit : HistoryRecord :=
  history_row "2024-04-02" "10:00:00" "https://raterhub.com/x?taskIds=7".

(** The rows of [raterhub_df] for [one_visit] and for [malformed_time]. *)
Definition one_visit_raterhub : list Visit :=
  [ mkVisit (mkDatetime 2024 3 15 0 0 0) (Some "09:00:00")
      "https://raterhub.com/x?taskIds=12345" ].

Definition malformed_time_raterhub : list Visit :=
  [ mkVisit (mkDatetime 2024 3 15 0 0 0) (Some "09:00:00")
      "https://raterhub.com/x?taskIds=1";
    mkVisit (mkDatetime 2024 3 16 0 0 0) (Some "9am")
      "https://raterhub.com/x?taskIds=2" ].


(** * Properties *)

Local Open Scope list_scope.

(** ** Lists *)

Section ListFacts.

Context {A B : Type}.

Lemma filter_map_In (f : A -> option B) (l : list A) (b : B) :
  In b (filter_map f l) <-> exists a, In a l /\ f a = Some b.
Proof.
  induction l as [| a l IH]; simpl.
  - split; [intros [] | intros (a & [] & _)].
  - destruct (f a) as [b' |] eqn:E; simpl; rewrite IH; split.
    + intros [-> | (a' & Hin & Hf)]; eauto.
    + intros (a' & [-> | Hin] & Hf); [left; congruence | eauto].
    + intros (a' & Hin & Hf); eauto.
    + intros (a' & [-> | Hin] & Hf); [congruence | eauto].
Qed.


Lemma traverse_Forall2 (f : A -> option B) (l : list A) (l' : list B) :
  traverse f l = Some l' -> Forall2 (fun a b => f a = Some b) l l'.
Proof.
  revert l'. induction l as [| a l IH]; simpl; intros l' H.
  - injection H as <-. constructor.
  - destruct (f a) as [b |] eqn:E; simpl in H; [| discriminate].
    destruct (traverse f l) as [bs |]; simpl in H; [| discriminate].
    injection H as <-. constructor; auto.
Qed.

Lemma traverse_none (f : A -> option B) (l : list A) (a : A) :
  In a l -> f a = None -> traverse f l = None.
Proof.
  induction l as [| x l IH]; simpl; [intros [] |].
  intros [-> | Hin] Hf.
  - rewrite Hf. reflexivity.
  - destruct (f x); simpl; [| reflexivity].
    rewrite (IH Hin Hf). reflexivity.
Qed.

Lemma Forall2_In_r (R : A -> B -> Prop) (l : list A) (l' : list B) (b : B) :
  Forall2 R l l' -> In b l' -> exists a, In a l /\ R a b.
Proof.
  induction 1 as [| a b' l l' HR _ IH]; simpl; [intros [] |].
  intros [-> | Hin]; [eauto |].
  destruct (IH Hin) as (a' & Ha & HR'). eauto.
Qed.

Lemma Forall2_split_r (R : A -> B -> Prop) (l : list A) (k1 k2 : list B)
  (b : B) :
  Forall2 R l (k1 ++ b :: k2) ->
  exists l1 a l2,
    l = l1 ++ a :: l2 /\ Forall2 R l1 k1 /\ R a b /\ Forall2 R l2 k2.
Proof.
  revert l. induction k1 as [| c k1 IH]; simpl; intros l H.
  - inversion H as [| a b' l2 k2' HR Hrest]; subst.
    exists [], a, l2. repeat split; auto.
  - inversion H as [| a b' l' k' HR Hrest]; subst.
    destruct (IH _ Hrest) as (l1 & a' & l2 & -> & H1 & Ha & H2).
    exists (a :: l1), a', l2. repeat split; auto.
Qed.

End ListFacts.

(** ** Removing duplicates *)

Section DropDuplicates.

Context {A : Type} (key : A -> string).

Lemma existsb_eqb_In (k : string) (seen : list string) :
  existsb (String.eqb k) seen = true <-> In k seen.
Proof.
  rewrite existsb_exists. split.
  - intros (x & Hin & Heq). apply String.eqb_eq in Heq. subst. exact Hin.
  - intros Hin. exists k. split; [exact Hin | apply String.eqb_refl].
Qed.

Lemma drop_duplicates_from_In (seen : list string) (l : list A) (a : A) :
  In a (drop_duplicates_from key seen l) -> In a l /\ ~ In (key a) seen.
Proof.
  revert seen. induction l as [| x l IH]; simpl; intros seen; [intros [] |].
  destruct (existsb (String.eqb (key x)) seen) eqn:E.
  - intros H. destruct (IH _ H). auto.
  - simpl. intros [-> | H].
    + split; [auto |]. intros Hin. apply existsb_eqb_In in Hin. congruence.
    + destruct (IH _ H) as [Hin Hseen]. split; [auto |].
      intros Hk. apply Hseen. right. exact Hk.
Qed.

Lemma drop_duplicates_from_NoDup (seen : list string) (l : list A) :
  NoDup (map key (drop_duplicates_from key seen l)).
Proof.
  revert seen. induction l as [| x l IH]; simpl; intros seen.
  - constructor.
  - destruct (existsb (String.eqb (key x)) seen); [apply IH |].
    simpl. constructor; [| apply IH].
    intros Hin. apply in_map_iff in Hin. destruct Hin as (y & Hk & Hy).
    apply drop_duplicates_from_In in Hy. destruct Hy as [_ Hy].
    apply Hy. left. symmetry. exact Hk.
Qed.

(** A kept row is the first row of the table with its key. *)
Lemma drop_duplicates_from_first (seen : list string) (l : list A) (a : A) :
  In a (drop_duplicates_from key seen l) ->
  exists l1 l2,
    l = l1 ++ a :: l2 /\ forall x, In x l1 -> key x <> key a.
Proof.
  revert seen. induction l as [| x l IH]; simpl; intros seen; [intros [] |].
  destruct (existsb (String.eqb (key x)) seen) eqn:E.
  - intros H. pose proof (drop_duplicates_from_In _ _ _ H) as [_ Hseen].
    destruct (IH _ H) as (l1 & l2 & -> & Hfirst).
    exists (x :: l1), l2. split; [reflexivity |].
    intros y [<- | Hy]; [| auto].
    intros Heq. apply Hseen. rewrite <- Heq. apply existsb_eqb_In. exact E.
  - simpl. intros [-> | H].
    + exists [], l. split; [reflexivity | intros y []].
    + pose proof (drop_duplicates_from_In _ _ _ H) as [_ Hseen].
      destruct (IH _ H) as (l1 & l2 & -> & Hfirst).
      exists (x :: l1), l2. split; [reflexivity |].
      intros y [<- | Hy]; [| auto].
      intros Heq. apply Hseen. left. exact Heq.
Qed.

(** Every key of the table is kept, unless it was seen before. *)
Lemma drop_duplicates_from_keeps (seen : list string) (l : list A) (a : A) :
  In a l -> ~ In (key a) seen ->
  In (key a) (map key (drop_duplicates_from key seen l)).
Proof.
  revert seen. induction l as [| x l IH]; simpl; intros seen; [intros [] |].
  intros Hin Hseen.
  destruct (existsb (String.eqb (key x)) seen) eqn:E.
  - destruct Hin as [-> | Hin]; [| auto].
    exfalso. apply Hseen. apply existsb_eqb_In. exact E.
  - simpl. destruct (string_dec (key x) (key a)) as [Heq | Hne]; [auto |].
    right. destruct Hin as [-> | Hin]; [congruence |].
    apply IH; [exact Hin |]. intros [Hk | Hk]; auto.
Qed.

End DropDuplicates.

(** ** The order of time stamps *)

Lemma lex_compare_trans l1 : forall l2 l3,
  List.length l1 = List.length l2 -> List.length l2 = List.length l3 ->
  lex_compare l1 l2 <> Gt -> lex_compare l2 l3 <> Gt -> lex_compare l1 l3 <> Gt.
Proof.
  induction l1 as [|x l1 IH]; intros [|y l2] [|z l3]; simpl; try discriminate; try congruence.
  intros H1 H2.
  destruct (Z.compare_spec x y), (Z.compare_spec y z), (Z.compare_spec x z);
    intros Hxy Hyz; try lia; try congruence.
  apply (IH l2 l3); auto.
Qed.

Lemma lex_compare_total l1 : forall l2, lex_compare l1 l2 = Gt -> lex_compare l2 l1 <> Gt.
Proof.
  induction l1 as [|x l1 IH]; intros [|y l2]; simpl; try discriminate.
  destruct (Z.compare_spec x y), (Z.compare_spec y x); try lia; try congruence.
  auto.
Qed.

Lemma datetime_leb_trans a b c : datetime_leb a b = true -> datetime_leb b c = true -> datetime_leb a c = true.
Proof.
  unfold datetime_leb, datetime_compare. intros H1 H2.
  assert (H : lex_compare (fields a) (fields c) <> Gt).
  { apply (lex_compare_trans _ (fields b)); try reflexivity.
    - destruct (lex_compare (fields a) (fields b)); congruence.
    - destruct (lex_compare (fields b) (fields c)); congruence. }
  destruct (lex_compare (fields a) (fields c)); congruence.
Qed.

Lemma datetime_leb_total a b : datetime_leb a b = false -> datetime_leb b a = true.
Proof.
  unfold datetime_leb, datetime_compare. intros H.
  destruct (lex_compare (fields a) (fields b)) eqn:E; try discriminate.
  apply lex_compare_total in E.
  destruct (lex_compare (fields b) (fields a)); congruence.
Qed.

Lemma code_digit_char d : 0 <= d <= 9 -> N_of_ascii (Chars.digit_char d) = Z.to_N (48 + d).
Proof.
  intros H. unfold Chars.digit_char.
  assert (E : nat_of_ascii (ascii_of_nat (Z.to_nat (48 + d))) = Z.to_nat (48 + d)).
  { apply nat_ascii_embedding. lia. }
  unfold nat_of_ascii in E. lia.
Qed.

Lemma digit_char_compare d1 d2 : 0 <= d1 <= 9 -> 0 <= d2 <= 9 ->
  Ascii.compare (Chars.digit_char d1) (Chars.digit_char d2) = (d1 ?= d2).
Proof.
  intros H1 H2. unfold Ascii.compare. rewrite !code_digit_char by assumption.
  rewrite Z2N.inj_compare by lia. apply Z.add_compare_mono_l.
Qed.

Lemma pad2_compare x y r1 r2 : 0 <= x < 100 -> 0 <= y < 100 ->
  String.compare (Chars.pad2 x ++ r1)%string (Chars.pad2 y ++ r2)%string
  = match x ?= y with Eq => String.compare r1 r2 | c => c end.
Proof.
  intros Hx Hy. unfold Chars.pad2. simpl.
  rewrite !digit_char_compare by (Z.to_euclidean_division_equations; lia).
  destruct (Z.compare_spec (x / 10 mod 10) (y / 10 mod 10)) as [E1|E1|E1];
  destruct (Z.compare_spec (x mod 10) (y mod 10)) as [E2|E2|E2];
  destruct (Z.compare_spec x y) as [E|E|E]; try reflexivity; exfalso;
  revert E1 E2; try (subst y); Z.to_euclidean_division_equations; lia.
Qed.

Lemma string_app_assoc (a b c : string) :
  ((a ++ b) ++ c)%string = (a ++ (b ++ c))%string.
Proof. induction a as [| x a IH]; simpl; [reflexivity | now rewrite IH]. Qed.

Lemma pad4_split x :
  0 <= x < 10000 ->
  Chars.pad4 x = (Chars.pad2 (x / 100) ++ Chars.pad2 (x mod 100))%string.
Proof.
  intros Hx. unfold Chars.pad4, Chars.pad2. cbn [append].
  replace (x / 100 / 10 mod 10) with (x / 1000 mod 10)
    by (Z.to_euclidean_division_equations; lia).
  replace (x mod 100 / 10 mod 10) with (x / 10 mod 10)
    by (Z.to_euclidean_division_equations; lia).
  replace (x mod 100 mod 10) with (x mod 10)
    by (Z.to_euclidean_division_equations; lia).
  reflexivity.
Qed.

Lemma pad4_compare x y r1 r2 : 0 <= x < 10000 -> 0 <= y < 10000 ->
  String.compare (Chars.pad4 x ++ r1)%string (Chars.pad4 y ++ r2)%string
  = match x ?= y with Eq => String.compare r1 r2 | c => c end.
Proof.
  intros Hx Hy. rewrite !pad4_split, !string_app_assoc by assumption.
  rewrite !pad2_compare by (Z.to_euclidean_division_equations; lia).
  destruct (Z.compare_spec (x / 100) (y / 100)) as [E1|E1|E1];
  destruct (Z.compare_spec (x mod 100) (y mod 100)) as [E2|E2|E2];
  destruct (Z.compare_spec x y) as [E|E|E]; try reflexivity; exfalso;
  revert E1 E2; try (subst y); Z.to_euclidean_division_equations; lia.
Qed.

(** ** Rendering keeps the order *)

Lemma ascii_compare_refl (c : ascii) : Ascii.compare c c = Eq.
Proof. unfold Ascii.compare. apply N.compare_refl. Qed.

Lemma strftime_compare (a b : datetime) :
  printable a -> printable b ->
  String.compare (strftime a) (strftime b) = datetime_compare a b.
Proof.
  intros (Hy & Hm & Hd & Hh & Hmi & Hs) (Hy' & Hm' & Hd' & Hh' & Hmi' & Hs').
  unfold strftime, strftime_date, datetime_compare, fields.
  rewrite !string_app_assoc.
  rewrite pad4_compare by assumption. simpl lex_compare.
  destruct (year a ?= year b); try reflexivity.
  cbn [append String.compare]. rewrite ascii_compare_refl.
  rewrite pad2_compare by assumption.
  destruct (month a ?= month b); try reflexivity.
  cbn [append String.compare]. rewrite ascii_compare_refl.
  rewrite pad2_compare by assumption.
  destruct (day a ?= day b); try reflexivity.
  cbn [append String.compare]. rewrite ascii_compare_refl.
  rewrite pad2_compare by assumption.
  destruct (hour a ?= hour b); try reflexivity.
  cbn [append String.compare]. rewrite ascii_compare_refl.
  rewrite pad2_compare by assumption.
  destruct (minute a ?= minute b); try reflexivity.
  cbn [append String.compare]. rewrite ascii_compare_refl.
  pose proof (pad2_compare (second a) (second b) EmptyString EmptyString Hs Hs') as P.
  unfold Chars.pad2 in *. cbn [append] in P. rewrite P.
  destruct (second a ?= second b); reflexivity.
Qed.

Lemma strftime_leb (a b : datetime) :
  printable a -> printable b ->
  datetime_leb a b = true -> String.leb (strftime a) (strftime b) = true.
Proof.
  intros Ha Hb. unfold String.leb, datetime_leb.
  rewrite (strftime_compare a b Ha Hb).
  destruct (datetime_compare a b); intros H; try reflexivity; discriminate.
Qed.

(** ** What [pd.to_datetime] accepts *)

Lemma two_digits_range (lo hi : Z) (s r : string) (v : Z) :
  two_digits lo hi s = Some (v, r) -> lo <= v <= hi.
Proof.
  unfold two_digits. destruct s as [| a [| b s]]; try discriminate.
  destruct (Chars.is_digit a && Chars.is_digit b); try discriminate.
  cbv zeta. generalize (10 * Chars.digit_val a + Chars.digit_val b).
  intros w.
  destruct (Z.leb_spec lo w); destruct (Z.leb_spec w hi);
    cbn [andb]; intros Hs; try discriminate Hs.
  injection Hs as <- <-. lia.
Qed.

(** Inversion of a successful step of the option monad. *)
Ltac bind_inv H :=
  match type of H with
  | bind ?e _ = Some _ =>
      let E := fresh "E" in
      destruct e as [[? ?] |] eqn:E; cbn [bind] in H; [| discriminate H]
  end.

Ltac bind_inv1 H :=
  match type of H with
  | bind ?e _ = Some _ =>
      let E := fresh "E" in
      destruct e as [? |] eqn:E; cbn [bind] in H; [| discriminate H]
  end.

Ltac two_digits_ranges :=
  repeat match goal with
         | E : two_digits _ _ _ = Some _ |- _ => apply two_digits_range in E
         end.

Lemma four_digits_range (s r : string) (v : Z) :
  four_digits s = Some (v, r) -> 0 <= v < 10000.
Proof.
  unfold four_digits. intros H. bind_inv H. bind_inv H.
  two_digits_ranges.
  assert (Hv : v = 100 * z + z0) by congruence. lia.
Qed.

Lemma iso_time_of_day_range (s : string) (h mi se : Z) :
  iso_time_of_day s = Some (h, mi, se) ->
  0 <= h < 100 /\ 0 <= mi < 100 /\ 0 <= se < 100.
Proof.
  unfold iso_time_of_day. destruct s as [| c s]; intros H.
  - injection H as <- <- <-. lia.
  - bind_inv1 H. bind_inv H. bind_inv1 H. bind_inv H. bind_inv1 H.
    bind_inv H.
    match type of H with
    | match ?x with _ => _ end = _ => destruct x; [| discriminate]
    end.
    injection H as <- <- <-. two_digits_ranges. lia.
Qed.

Lemma to_datetime_valid (s : string) (t : datetime) :
  to_datetime s = Some t ->
  valid_datetime t = true /\ timestamp_in_bounds t = true /\ printable t.
Proof.
  unfold to_datetime. intros H.
  bind_inv H. bind_inv1 H. bind_inv H. bind_inv1 H. bind_inv H.
  match type of H with
  | bind ?e _ = _ => destruct e as [[[h mi] se] |] eqn:Et
  end; cbn [bind] in H; [| discriminate].
  match type of H with
  | (if ?c then _ else _) = _ => destruct c eqn:Ev; [| discriminate]
  end.
  injection H as <-. apply andb_true_iff in Ev. destruct Ev as [Ev Eb].
  split; [exact Ev |]. split; [exact Eb |].
  apply four_digits_range in E.
  apply iso_time_of_day_range in Et.
  two_digits_ranges.
  unfold printable. cbn [year month day hour minute second]. lia.
Qed.

(** ** Sorting *)

Section SortValues.

Context {A : Type} (key : A -> datetime).

Lemma insert_by_perm (a : A) (l : list A) :
  Permutation (insert_by key a l) (a :: l).
Proof.
  induction l as [| b l IH]; simpl; [reflexivity |].
  destruct (datetime_leb (key a) (key b)); [reflexivity |].
  rewrite IH. apply perm_swap.
Qed.

Lemma sort_values_perm (l : list A) : Permutation (sort_values key l) l.
Proof.
  induction l as [| a l IH]; simpl; [reflexivity |].
  rewrite insert_by_perm. now rewrite IH.
Qed.

Lemma insert_by_sorted (a : A) (l : list A) :
  StronglySorted (key_le key) l ->
  StronglySorted (key_le key) (insert_by key a l).
Proof.
  induction 1 as [| b l Hs IH Hb]; simpl.
  - constructor; constructor.
  - destruct (datetime_leb (key a) (key b)) eqn:E.
    + constructor; [constructor; assumption |].
      constructor; [exact E |].
      eapply Forall_impl; [| exact Hb].
      intros c Hc. unfold key_le in *. eapply datetime_leb_trans; eauto.
    + constructor; [exact IH |].
      apply (Permutation_Forall (Permutation_sym (insert_by_perm a l))).
      constructor; [| exact Hb].
      apply datetime_leb_total. exact E.
Qed.

Lemma sort_values_sorted (l : list A) :
  StronglySorted (key_le key) (sort_values key l).
Proof.
  induction l as [| a l IH]; simpl; [constructor |].
  apply insert_by_sorted. exact IH.
Qed.

End SortValues.

Lemma StronglySorted_map {A B : Type} (R : A -> A -> Prop)
  (S : B -> B -> Prop) (f : A -> B) (P : A -> Prop) (l : list A) :
  (forall a b, P a -> P b -> R a b -> S (f a) (f b)) ->
  Forall P l -> StronglySorted R l -> StronglySorted S (map f l).
Proof.
  intros HRS HP Hs. induction Hs as [| a l Hs IH Ha]; simpl; [constructor |].
  inversion HP as [| ? ? Pa Pl]; subst.
  constructor; [apply IH; exact Pl |].
  apply Forall_map. rewrite Forall_forall in *.
  intros b Hb. apply HRS; auto.
Qed.

(** ** The stages of a run that shows a table *)

Section Stages.

Variable gmt7 : datetime -> Z.
Variable pacific : Z -> Z.

Lemma result_df_results (raterhub : list TaskRow)
  (table : list (ResultRow string)) (total_tasks total_visits : nat) :
  result_df raterhub = Results table total_tasks total_visits ->
  exists parsed,
    traverse (set_date to_datetime) (project_and_clean raterhub)
    = Some parsed
    /\ table
       = map render (sort_values Date_Pacific
                       (drop_duplicates Task_ID parsed))
    /\ total_tasks = List.length table
    /\ total_visits = List.length (project_and_clean raterhub).
Proof.
  unfold result_df.
  destruct (traverse (set_date to_datetime) (project_and_clean raterhub))
    as [parsed |]; [| discriminate].
  intros H. injection H as <- <- <-. exists parsed. auto.
Qed.

Lemma extractor_results (df : DataFrame) (selected_month : string)
  (selected_year : Z) (table : list (ResultRow string))
  (total_tasks total_visits : nat) :
  extractor gmt7 pacific df selected_month selected_year
  = Results table total_tasks total_visits ->
  exists raterhub,
    has_required_columns df = true
    /\ select_raterhub df selected_month selected_year = Some raterhub
    /\ raterhub <> []
    /\ result_df (map (add_columns gmt7 pacific) raterhub)
       = Results table total_tasks total_visits.
Proof.
  unfold extractor.
  destruct (has_required_columns df); [| discriminate]. cbn [negb].
  destruct (select_raterhub df selected_month selected_year)
    as [[| v raterhub] |]; try discriminate.
  intros H. exists (v :: raterhub). repeat split; auto. discriminate.
Qed.

Lemma combine_traverse_In {X Y Z' : Type} (f : X -> Y)
  (g : Y -> option Z') (l : list X) (l' : list Z') (x : X) (z : Z') :
  traverse g (map f l) = Some l' -> In (z, x) (combine l' l) ->
  g (f x) = Some z.
Proof.
  revert l'. induction l as [| a l IH]; intros l' H Hin.
  - destruct l'; destruct Hin.
  - simpl in H. destruct (g (f a)) as [b |] eqn:E; [| discriminate].
    cbn [bind] in H.
    destruct (traverse g (map f l)) as [bs |]; [| discriminate].
    cbn [bind] in H. injection H as <-. destruct Hin as [Heq | Hin].
    + congruence.
    + apply (IH bs); auto.
Qed.

(** Where a row of [raterhub_df] comes from. *)
Lemma select_raterhub_In (df : DataFrame) (selected_month : string)
  (selected_year : Z) (raterhub : list Visit) (v : Visit) :
  select_raterhub df selected_month selected_year = Some raterhub ->
  In v raterhub ->
  exists h s i,
    In h (records df)
    /\ list_index selected_month months = Some i
    /\ row_date h = Some s
    /\ to_datetime s = Some (visit_date v)
    /\ month (visit_date v) = i + 1
    /\ year (visit_date v) = selected_year
    /\ row_time h = visit_time v
    /\ row_url h = Some (visit_url v)
    /\ str_contains_nocase "raterhub" (Some (visit_url v)) = true.
Proof.
  unfold select_raterhub. intros H Hin.
  destruct (list_index selected_month months) as [i |]; [| discriminate].
  cbn [bind] in H.
  destruct (traverse to_datetime_cell (map row_date (records df)))
    as [dates |] eqn:Ed; [| discriminate].
  cbn [bind] in H.
  destruct (str_accessor (map row_url (records df))); [| discriminate].
  injection H as <-.
  unfold raterhub_df, filtered_df in Hin.
  apply filter_map_In in Hin. destruct Hin as ([d h] & Hin & Hr).
  apply filter_map_In in Hin. destruct Hin as ([od h'] & Hin & Hm).
  unfold in_month in Hm. cbn [fst snd] in Hm.
  destruct od as [d' |]; [| discriminate].
  destruct ((month d' =? i + 1) && (year d' =? selected_year)) eqn:Em;
    [| discriminate].
  injection Hm as -> ->.
  apply andb_true_iff in Em. destruct Em as [Em Ey].
  apply Z.eqb_eq in Em, Ey.
  pose proof (combine_traverse_In _ _ _ _ _ _ Ed Hin) as Hc.
  apply in_combine_r in Hin.
  unfold to_datetime_cell in Hc.
  destruct (row_date h) as [s |] eqn:Es; [| discriminate].
  destruct (to_datetime s) as [t |] eqn:Et; [| discriminate].
  cbn [bind] in Hc. injection Hc as ->.
  unfold is_raterhub in Hr. cbn [fst snd] in Hr.
  destruct (str_contains_nocase "raterhub" (row_url h)) eqn:Ec;
    [| discriminate].
  destruct (row_url h) as [u |] eqn:Eu; [| discriminate].
  injection Hr as <-. cbn [visit_date visit_time visit_url].
  exists h, s, i. repeat split; auto.
Qed.

(** Where a row of the table comes from. *)
Lemma result_df_In (raterhub : list Visit)
  (table : list (ResultRow string)) (total_tasks total_visits : nat)
  (row : ResultRow string) :
  result_df (map (add_columns gmt7 pacific) raterhub)
  = Results table total_tasks total_visits ->
  In row table ->
  exists v ts,
    In v raterhub
    /\ URL row = visit_url v
    /\ extract_task_id (visit_url v) = Some (Task_ID row)
    /\ to_datetime
         (convert_to_pacific gmt7 pacific (visit_date v) (visit_time v))
       = Some ts
    /\ Date_Pacific row = strftime ts.
Proof.
  intros H Hin. apply result_df_results in H.
  destruct H as (parsed & Hp & -> & _ & _).
  apply in_map_iff in Hin. destruct Hin as (p & <- & Hin).
  apply (Permutation_in _ (sort_values_perm Date_Pacific _)) in Hin.
  apply drop_duplicates_from_In in Hin. destruct Hin as [Hin _].
  apply traverse_Forall2 in Hp.
  destruct (Forall2_In_r _ _ _ _ Hp Hin) as (c & Hc & Hs).
  unfold project_and_clean in Hc. apply filter_map_In in Hc.
  destruct Hc as (r & Hr & Hd).
  apply in_map_iff in Hr. destruct Hr as (v & <- & Hv).
  unfold dropna, add_columns in Hd. cbn [task_id visit pacific_time] in Hd.
  destruct (extract_task_id (visit_url v)) as [t |] eqn:Et;
    [| discriminate].
  injection Hd as <-. unfold set_date in Hs.
  cbn [Date_Pacific URL Task_ID] in Hs.
  destruct (to_datetime
              (convert_to_pacific gmt7 pacific (visit_date v)
                 (visit_time v))) as [ts |] eqn:Ets; [| discriminate].
  cbn [bind] in Hs. injection Hs as <-.
  exists v, ts. cbn. repeat split; auto.
Qed.

End Stages.

(** ** Text search *)

Lemma strip_prefix_spec (p s r : string) :
  strip_prefix p s = Some r <-> s = (p ++ r)%string.
Proof.
  revert s. induction p as [| a p IH]; intros s; simpl.
  - split; [intros [= ->]; reflexivity | intros ->; reflexivity].
  - destruct s as [| b s]; [split; discriminate |].
    destruct (Ascii.eqb_spec a b) as [-> | Hne].
    + rewrite IH. split; [intros ->; reflexivity | intros [= ->]; reflexivity].
    + split; [discriminate | intros [= <- _]; contradiction].
Qed.

Lemma strip_prefix_app (p r : string) : strip_prefix p (p ++ r) = Some r.
Proof. apply strip_prefix_spec. reflexivity. Qed.

Lemma contains_spec (p s : string) :
  contains p s = true <-> exists a b, s = (a ++ p ++ b)%string.
Proof.
  induction s as [| c s IH]; simpl.
  - destruct (strip_prefix p EmptyString) as [r |] eqn:E.
    + split; [intros _ | reflexivity].
      apply strip_prefix_spec in E. exists EmptyString, r. exact E.
    + split; [discriminate |]. intros (a & b & H).
      destruct a as [| x a]; [| discriminate].
      simpl in H. apply strip_prefix_spec in H. congruence.
  - destruct (strip_prefix p (String c s)) as [r |] eqn:E.
    + split; [intros _ | reflexivity].
      apply strip_prefix_spec in E. exists EmptyString, r. exact E.
    + rewrite IH. split.
      * intros (a & b & ->). exists (String c a), b. reflexivity.
      * intros (a & b & H). destruct a as [| x a].
        -- simpl in H. apply strip_prefix_spec in H. congruence.
        -- injection H as _ ->. eauto.
Qed.

Lemma lower_string_app_inv (u a b : string) :
  Chars.lower_string u = (a ++ b)%string ->
  exists u1 u2,
    u = (u1 ++ u2)%string
    /\ Chars.lower_string u1 = a /\ Chars.lower_string u2 = b.
Proof.
  revert u. induction a as [| x a IH]; intros u H.
  - exists EmptyString, u. auto.
  - destruct u as [| c u]; [discriminate |].
    simpl in H. injection H as Hc Hu.
    destruct (IH _ Hu) as (u1 & u2 & -> & H1 & H2).
    exists (String c u1), u2. simpl. repeat split; congruence.
Qed.

Lemma str_contains_nocase_spec (pat url : string) :
  str_contains_nocase pat (Some url) = true ->
  contains_nocase (Chars.lower_string pat) url.
Proof.
  unfold str_contains_nocase, contains_nocase. intros H.
  apply contains_spec in H. destruct H as (a & b & H).
  apply lower_string_app_inv in H. destruct H as (p & mr & -> & _ & H).
  apply lower_string_app_inv in H. destruct H as (m & r & -> & Hm & _).
  exists p, m, r. auto.
Qed.

Lemma span_digits_spec (s : string) :
  exists r,
    s = (span_digits s ++ r)%string
    /\ all_digits (span_digits s) = true
    /\ starts_with_digit r = false.
Proof.
  induction s as [| c s (r & Hs & Hd & Hr)]; simpl.
  - exists EmptyString. auto.
  - destruct (Chars.is_digit c) eqn:E.
    + exists r. simpl. rewrite E, Hd. repeat split; congruence.
    + exists (String c s). simpl. auto.
Qed.

Lemma match_task_ids_some (s g : string) :
  match_task_ids s = Some g -> exists r, task_ids_at s EmptyString g r.
Proof.
  unfold match_task_ids, task_ids_at.
  destruct (strip_prefix "taskIds=" s) as [t |] eqn:E; [| discriminate].
  apply strip_prefix_spec in E.
  destruct (span_digits_spec t) as (r & Ht & Hd & Hr).
  destruct (span_digits t) as [| c ds] eqn:Es; [discriminate |].
  intros [= <-]. exists r. repeat split; auto; [| discriminate].
  rewrite E at 1. rewrite Ht at 1. reflexivity.
Qed.

Lemma match_task_ids_none (c : ascii) (r : string) :
  match_task_ids ("taskIds=" ++ String c r) = None ->
  Chars.is_digit c = false.
Proof.
  unfold match_task_ids. rewrite strip_prefix_app. simpl.
  destruct (Chars.is_digit c); [discriminate | reflexivity].
Qed.

(** [re.search] finds the leftmost place where the pattern matches. *)
Lemma re_search_task_ids_some (s g : string) :
  re_search_task_ids s = Some g ->
  exists p r,
    task_ids_at s p g r
    /\ forall p' c r',
        s = (p' ++ "taskIds=" ++ String c r')%string ->
        Chars.is_digit c = true ->
        (String.length p <= String.length p')%nat.
Proof.
  induction s as [| x s IH]; simpl.
  - discriminate.
  - destruct (match_task_ids (String x s)) as [g' |] eqn:E.
    + intros [= ->]. apply match_task_ids_some in E. destruct E as (r & H).
      exists EmptyString, r. split; [exact H |]. intros. simpl. lia.
    + intros H. destruct (IH H) as (p & r & (Hs & Hg & Hd & Hr) & Hleft).
      exists (String x p), r. split.
      * unfold task_ids_at. repeat split; auto.
        simpl. f_equal. exact Hs.
      * intros p' c r' Hp Hc. destruct p' as [| y p'].
        -- simpl in Hp. rewrite Hp in E.
           apply (match_task_ids_none c r') in E. congruence.
        -- injection Hp as _ Hp. simpl.
           apply le_n_S. exact (Hleft p' c r' Hp Hc).
Qed.

Lemma re_search_task_ids_none (s : string) :
  re_search_task_ids s = None ->
  forall p c r,
    s = (p ++ "taskIds=" ++ String c r)%string -> Chars.is_digit c = false.
Proof.
  induction s as [| x s IH]; simpl.
  - intros _ p c r H. destruct p; discriminate.
  - destruct (match_task_ids (String x s)) as [g' |] eqn:E; [discriminate |].
    intros H p c r Hp. destruct p as [| y p].
    + simpl in Hp. rewrite Hp in E. exact (match_task_ids_none c r E).
    + injection Hp as _ Hp. exact (IH H p c r Hp).
Qed.

(** ** Deduplication inside [result_df] *)

Lemma Forall2_In_l {A B : Type} (R : A -> B -> Prop) (l : list A)
  (l' : list B) (a : A) :
  Forall2 R l l' -> In a l -> exists b, In b l' /\ R a b.
Proof.
  induction 1 as [| a' b l l' HR _ IH]; simpl; [intros [] |].
  intros [-> | Hin]; [eauto |].
  destruct (IH Hin) as (b' & Hb & HR'). eauto.
Qed.

Lemma set_date_fields {A B : Type} (f : A -> option B) (r : ResultRow A)
  (r' : ResultRow B) :
  set_date f r = Some r' ->
  f (Date_Pacific r) = Some (Date_Pacific r')
  /\ URL r' = URL r /\ Task_ID r' = Task_ID r.
Proof.
  unfold set_date. destruct (f (Date_Pacific r)) as [d |]; [| discriminate].
  cbn [bind]. intros [= <-]. auto.
Qed.

Lemma result_df_NoDup (raterhub : list TaskRow)
  (table : list (ResultRow string)) (total_tasks total_visits : nat) :
  result_df raterhub = Results table total_tasks total_visits ->
  NoDup (map Task_ID table).
Proof.
  intros H. apply result_df_results in H.
  destruct H as (parsed & _ & -> & _ & _).
  rewrite map_map.
  apply (Permutation_NoDup
           (l := map Task_ID (drop_duplicates Task_ID parsed))).
  - apply (Permutation_map (fun r => Task_ID (render r))).
    apply Permutation_sym, sort_values_perm.
  - apply drop_duplicates_from_NoDup.
Qed.

(** The table has the task identifiers of the cleaned rows, each once. *)
Lemma result_df_task_ids (raterhub : list TaskRow)
  (table : list (ResultRow string)) (total_tasks total_visits : nat)
  (t : string) :
  result_df raterhub = Results table total_tasks total_visits ->
  In t (map Task_ID (project_and_clean raterhub)) <-> In t (map Task_ID table).
Proof.
  intros H. apply result_df_results in H.
  destruct H as (parsed & Hp & -> & _ & _).
  apply traverse_Forall2 in Hp. rewrite !in_map_iff. split.
  - intros (c & <- & Hc).
    destruct (Forall2_In_l _ _ _ _ Hp Hc) as (q & Hq & Hs).
    apply set_date_fields in Hs. destruct Hs as (_ & _ & Hid).
    assert (Hk : In (Task_ID q)
                   (map Task_ID (drop_duplicates Task_ID parsed))).
    { apply drop_duplicates_from_keeps; [exact Hq | intros []]. }
    apply in_map_iff in Hk. destruct Hk as (q' & Hid' & Hq').
    exists (render q'). split; [cbn; congruence |].
    apply in_map.
    apply (Permutation_in _ (Permutation_sym (sort_values_perm _ _))).
    exact Hq'.
  - intros (row & <- & Hrow).
    apply in_map_iff in Hrow. destruct Hrow as (q & <- & Hq).
    apply (Permutation_in _ (sort_values_perm Date_Pacific _)) in Hq.
    apply drop_duplicates_from_In in Hq. destruct Hq as [Hq _].
    destruct (Forall2_In_r _ _ _ _ Hp Hq) as (c & Hc & Hs).
    apply set_date_fields in Hs. destruct Hs as (_ & _ & Hid).
    exists c. split; [cbn; congruence | exact Hc].
Qed.

(** A row of the table is the first cleaned row with its task
    identifier, in the order of the cleaned rows. *)
Lemma result_df_first (raterhub : list TaskRow)
  (table : list (ResultRow string)) (total_tasks total_visits : nat)
  (row : ResultRow string) :
  result_df raterhub = Results table total_tasks total_visits ->
  In row table ->
  exists l1 v l2 ts,
    project_and_clean raterhub = l1 ++ v :: l2
    /\ (forall x, In x l1 -> Task_ID x <> Task_ID v)
    /\ Task_ID row = Task_ID v
    /\ URL row = URL v
    /\ to_datetime (Date_Pacific v) = Some ts
    /\ Date_Pacific row = strftime ts.
Proof.
  intros H Hrow. apply result_df_results in H.
  destruct H as (parsed & Hp & -> & _ & _).
  apply traverse_Forall2 in Hp.
  apply in_map_iff in Hrow. destruct Hrow as (q & <- & Hq).
  apply (Permutation_in _ (sort_values_perm Date_Pacific _)) in Hq.
  apply drop_duplicates_from_first in Hq.
  destruct Hq as (k1 & k2 & Hk & Hfirst). rewrite Hk in Hp.
  apply Forall2_split_r in Hp.
  destruct Hp as (l1 & v & l2 & Hl & H1 & Hv & _).
  apply set_date_fields in Hv. destruct Hv as (Hd & Hu & Hid).
  exists l1, v, l2, (Date_Pacific q). cbn. repeat split; auto.
  intros x Hx Heq.
  destruct (Forall2_In_l _ _ _ _ H1 Hx) as (y & Hy & Hs).
  apply set_date_fields in Hs. destruct Hs as (_ & _ & Hid').
  apply (Hfirst y Hy). congruence.
Qed.

Lemma project_and_clean_length (gmt7 : datetime -> Z) (pacific : Z -> Z)
  (raterhub : list Visit) :
  List.length (project_and_clean (map (add_columns gmt7 pacific) raterhub))
  = List.length (filter has_task_id raterhub).
Proof.
  unfold project_and_clean.
  induction raterhub as [| v l IH]; simpl; [reflexivity |].
  unfold dropna at 1, has_task_id at 1. cbn [add_columns task_id].
  destruct (extract_task_id (visit_url v)); simpl; congruence.
Qed.

(** * Properties of a run *)

Section Run.

Variable gmt7 : datetime -> Z.
Variable pacific : Z -> Z.

(** C4.  Whatever the uploaded table and the selected month, no two rows
    of the table that a run shows have the same task identifier. *)
Theorem task_ids_unique (df : DataFrame) (selected_month : string)
  (selected_year : Z) (table : list (ResultRow string))
  (total_tasks total_visits : nat) :
  extractor gmt7 pacific df selected_month selected_year
  = Results table total_tasks total_visits ->
  NoDup (map Task_ID table).
Proof.
  intros H. apply extractor_results in H.
  destruct H as (raterhub & _ & _ & _ & H).
  exact (result_df_NoDup _ _ _ _ H).
Qed.

(** C6.  Every row of the table has the URL of a row of the uploaded
    table; that URL contains "raterhub" in some mix of upper and lower
    case, and contains "taskIds=" followed by a run of digits that is the
    task identifier of the row, which [extract_task_id] returns.  A row
    without a URL, or whose URL has no such match, gives no row of the
    table. *)
Theorem output_urls_match (df : DataFrame) (selected_month : string)
  (selected_year : Z) (table : list (ResultRow string))
  (total_tasks total_visits : nat) :
  extractor gmt7 pacific df selected_month selected_year
  = Results table total_tasks total_visits ->
  forall row, In row table ->
    (exists h, In h (records df) /\ row_url h = Some (URL row))
    /\ contains_nocase "raterhub" (URL row)
    /\ extract_task_id (URL row) = Some (Task_ID row)
    /\ exists p r, task_ids_at (URL row) p (Task_ID row) r.
Proof.
  intros H row Hrow. apply extractor_results in H.
  destruct H as (raterhub & _ & Hsel & _ & H).
  destruct (result_df_In _ _ _ _ _ _ _ H Hrow)
    as (v & ts & Hv & Hu & Hid & _).
  destruct (select_raterhub_In _ _ _ _ _ Hsel Hv)
    as (h & s & i & Hh & _ & _ & _ & _ & _ & _ & Hurl & Hc).
  rewrite Hu. repeat split.
  - exists h. auto.
  - exact (str_contains_nocase_spec "raterhub" _ Hc).
  - exact Hid.
  - unfold extract_task_id in Hid.
    apply re_search_task_ids_some in Hid.
    destruct Hid as (p & r & Hat & _). eauto.
Qed.

(** C7.  The Pacific times of the table, as rendered on
    [YYYY-MM-DD HH:MM:SS], never decrease from a row to any row below
    it. *)
Theorem output_sorted (df : DataFrame) (selected_month : string)
  (selected_year : Z) (table : list (ResultRow string))
  (total_tasks total_visits : nat) :
  extractor gmt7 pacific df selected_month selected_year
  = Results table total_tasks total_visits ->
  StronglySorted (fun a b => String.leb a b = true)
    (map Date_Pacific table).
Proof.
  intros H. apply extractor_results in H.
  destruct H as (raterhub & _ & _ & _ & H).
  apply result_df_results in H. destruct H as (parsed & Hp & -> & _ & _).
  rewrite map_map.
  apply (StronglySorted_map (key_le Date_Pacific) _
           (fun r => Date_Pacific (render r))
           (fun r => printable (Date_Pacific r))).
  - intros a b Ha Hb Hab. cbn. apply strftime_leb; assumption.
  - apply Forall_forall. intros q Hq.
    apply (Permutation_in _ (sort_values_perm Date_Pacific _)) in Hq.
    apply drop_duplicates_from_In in Hq. destruct Hq as [Hq _].
    apply traverse_Forall2 in Hp.
    destruct (Forall2_In_r _ _ _ _ Hp Hq) as (c & _ & Hs).
    apply set_date_fields in Hs. destruct Hs as (Hd & _).
    apply to_datetime_valid in Hd. apply Hd.
  - apply sort_values_sorted.
Qed.

(** Duplicates are removed before the table is sorted: of the rows that
    reach the deduplication with a given task identifier, the table keeps
    the one listed first in the uploaded table, with its time rendered
    again, and drops those listed after it.  The table has every task
    identifier of those rows, each once. *)
Lemma dedup_keeps_first_listed (df : DataFrame) (selected_month : string)
  (selected_year : Z) (table : list (ResultRow string))
  (total_tasks total_visits : nat) :
  extractor gmt7 pacific df selected_month selected_year
  = Results table total_tasks total_visits ->
  exists raterhub,
    select_raterhub df selected_month selected_year = Some raterhub
    /\ let rows :=
         project_and_clean (map (add_columns gmt7 pacific) raterhub) in
       NoDup (map Task_ID table)
       /\ (forall t, In t (map Task_ID rows) <-> In t (map Task_ID table))
       /\ forall row, In row table ->
          exists l1 v l2 ts,
            rows = l1 ++ v :: l2
            /\ (forall x, In x l1 -> Task_ID x <> Task_ID v)
            /\ Task_ID row = Task_ID v
            /\ URL row = URL v
            /\ to_datetime (Date_Pacific v) = Some ts
            /\ Date_Pacific row = strftime ts.
Proof.
  intros H. apply extractor_results in H.
  destruct H as (raterhub & _ & Hsel & _ & H).
  exists raterhub. split; [exact Hsel |]. cbv zeta. repeat split.
  - exact (result_df_NoDup _ _ _ _ H).
  - apply (result_df_task_ids _ _ _ _ t H).
  - apply (result_df_task_ids _ _ _ _ t H).
  - intros row Hrow. exact (result_df_first _ _ _ _ _ H Hrow).
Qed.

(** Once the columns are read, a run that is left without rows does not
    fail.  When no row of the selected month mentions RaterHub, it reports
    that nothing was found; when some do but none has a task identifier,
    it shows an empty table, with zero tasks and zero visits. *)
Lemma empty_result_outcomes (df : DataFrame) (selected_month : string)
  (selected_year : Z) (raterhub : list Visit) :
  has_required_columns df = true ->
  select_raterhub df selected_month selected_year = Some raterhub ->
  (raterhub = [] ->
   extractor gmt7 pacific df selected_month selected_year = NoMatches)
  /\ (raterhub <> [] ->
      project_and_clean (map (add_columns gmt7 pacific) raterhub) = [] ->
      extractor gmt7 pacific df selected_month selected_year
      = Results [] 0 0).
Proof.
  intros Hcols Hsel. unfold extractor. rewrite Hcols, Hsel. cbn [negb].
  split.
  - intros ->. reflexivity.
  - intros Hne Hclean. destruct raterhub as [| v l]; [contradiction |].
    unfold result_df. rewrite Hclean. reflexivity.
Qed.

(** C9.  A run reports the missing columns exactly when one of the six
    required names is not among the column labels of the uploaded table:
    whatever the rows, the month and the year are, since nothing is
    parsed or filtered before; and a table that has the six names is not
    rejected for having more. *)
Theorem schema_error_iff_missing_column (df : DataFrame)
  (selected_month : string) (selected_year : Z) :
  extractor gmt7 pacific df selected_month selected_year = SchemaError
  <-> exists col, In col required_columns /\ ~ In col (columns df).
Proof.
  unfold extractor, has_required_columns. split.
  - destruct (forallb _ required_columns) eqn:E.
    + cbn [negb].
      destruct (select_raterhub df selected_month selected_year)
        as [[| v l] |]; try discriminate.
      unfold result_df.
      destruct (traverse _ _); discriminate.
    + intros _.
      assert (Hn : ~ forall col, In col required_columns ->
                     existsb (String.eqb col) (columns df) = true).
      { intros Hall. apply forallb_forall in Hall. congruence. }
      induction required_columns as [| c l IH].
      * exfalso. apply Hn. intros col [].
      * destruct (existsb (String.eqb c) (columns df)) eqn:Ec.
        -- destruct IH as (col & Hin & Hcol).
           ++ simpl in E. rewrite Ec in E. exact E.
           ++ intros Hall. apply Hn. intros col [<- | Hin]; auto.
           ++ exists col. split; [right; exact Hin | exact Hcol].
        -- exists c. split; [left; reflexivity |].
           intros Hin. apply existsb_eqb_In in Hin. congruence.
  - intros (col & Hin & Hcol).
    assert (E : forallb (fun c => existsb (String.eqb c) (columns df))
                  required_columns = false).
    { destruct (forallb _ required_columns) eqn:E; [| reflexivity].
      exfalso. apply Hcol. apply existsb_eqb_In.
      exact (proj1 (forallb_forall _ _) E col Hin). }
    rewrite E. reflexivity.
Qed.

(** C10.  [extract_task_id] returns the run of digits that follows the
    leftmost "taskIds=" that a digit follows, the letters being compared
    as they are; a URL with no "taskIds=" written exactly so has no task
    identifier.  The rows without a task identifier are neither in the
    table nor in the count of visits. *)
Theorem extract_task_id_leftmost_exact_case :
  (forall url,
     match extract_task_id url with
     | Some g =>
         exists p r,
           task_ids_at url p g r
           /\ forall p' c r',
               url = (p' ++ "taskIds=" ++ String c r')%string ->
               Chars.is_digit c = true ->
               (String.length p <= String.length p')%nat
     | None =>
         forall p c r,
           url = (p ++ "taskIds=" ++ String c r)%string ->
           Chars.is_digit c = false
     end)
  /\ (forall url,
        contains "taskIds=" url = false -> extract_task_id url = None)
  /\ (forall df selected_month selected_year table total_tasks
        total_visits,
        extractor gmt7 pacific df selected_month selected_year
        = Results table total_tasks total_visits ->
        exists raterhub,
          select_raterhub df selected_month selected_year = Some raterhub
          /\ total_visits = List.length (filter has_task_id raterhub)
          /\ (forall t,
                In t (map Task_ID table)
                <-> exists v,
                      In v raterhub
                      /\ extract_task_id (visit_url v) = Some t)).
Proof.
  split; [| split].
  - intros url. unfold extract_task_id.
    destruct (re_search_task_ids url) as [g |] eqn:E.
    + exact (re_search_task_ids_some _ _ E).
    + exact (re_search_task_ids_none _ E).
  - intros url Hc. unfold extract_task_id.
    destruct (re_search_task_ids url) as [g |] eqn:E; [| reflexivity].
    apply re_search_task_ids_some in E.
    destruct E as (p & r & (Hu & _) & _).
    assert (Ht : contains "taskIds=" url = true).
    { apply contains_spec. exists p, (g ++ r)%string. exact Hu. }
    congruence.
  - intros df selected_month selected_year table total_tasks total_visits H.
    apply extractor_results in H.
    destruct H as (raterhub & _ & Hsel & _ & H).
    exists raterhub. split; [exact Hsel |]. split.
    + apply result_df_results in H. destruct H as (_ & _ & _ & _ & ->).
      apply project_and_clean_length.
    + intros t. rewrite <- (result_df_task_ids _ _ _ _ t H).
      unfold project_and_clean. rewrite in_map_iff. split.
      * intros (c & <- & Hc). apply filter_map_In in Hc.
        destruct Hc as (r & Hr & Hd).
        apply in_map_iff in Hr. destruct Hr as (v & <- & Hv).
        exists v. split; [exact Hv |].
        unfold dropna in Hd. cbn [add_columns task_id] in Hd.
        destruct (extract_task_id (visit_url v)); [| discriminate].
        injection Hd as <-. reflexivity.
      * intros (v & Hv & Hid).
        exists (mkResultRow
                  (convert_to_pacific gmt7 pacific (visit_date v)
                     (visit_time v)) (visit_url v) t).
        split; [reflexivity |]. apply filter_map_In.
        exists (add_columns gmt7 pacific v). split; [apply in_map, Hv |].
        unfold dropna. cbn [add_columns task_id]. rewrite Hid.
        reflexivity.
Qed.

End Run.

(** * Runs on the zone tables of 2007 to 2037 *)

(** C8.  The visit of 2024-03-15 at 09:00:00 to
    https://raterhub.com/x?taskIds=12345, with March 2024 selected, gives a
    table of one row: task identifier 12345 at 2024-03-14 19:00:00
    Pacific time, which is then seven hours behind UTC. *)
Theorem scenario_a :
  run one_visit "March" 2024
  = Results
      [ mkResultRow "2024-03-14 19:00:00"
          "https://raterhub.com/x?taskIds=12345" "12345" ] 1 1
  /\ us_pacific
       (seconds_of (mkDatetime 2024 3 15 9 0 0)
        - bangkok (mkDatetime 2024 3 15 9 0 0))
     = - (7 * 3600).
Proof. split; vm_compute; reflexivity. Qed.

(** The placeholder of a failed conversion is not a date, whatever the
    reason it embeds. *)
Lemma placeholder_not_a_date (reason : string) :
  to_datetime ("Error converting time: " ++ reason) = None.
Proof. reflexivity. Qed.

(** When the Pacific time of every cleaned row is a date, the run shows a
    table. *)
Lemma result_df_total (raterhub : list TaskRow) :
  (forall c, In c (project_and_clean raterhub) ->
             to_datetime (Date_Pacific c) <> None) ->
  exists table,
    result_df raterhub
    = Results table (List.length table)
        (List.length (project_and_clean raterhub)).
Proof.
  intros Hall. unfold result_df.
  destruct (traverse (set_date to_datetime) (project_and_clean raterhub))
    as [parsed |] eqn:E; [eauto |].
  exfalso. revert Hall E.
  induction (project_and_clean raterhub) as [| c l IH]; simpl;
    [discriminate |].
  intros Hall. unfold set_date at 1.
  destruct (to_datetime (Date_Pacific c)) as [d |] eqn:Ed.
  - cbn [bind].
    destruct (traverse (set_date to_datetime) l) eqn:El; [discriminate |].
    intros _. apply IH; auto.
  - exfalso. apply (Hall c); auto.
Qed.

(** A row that has a task identifier and whose Pacific time is not a date
    makes the second [pd.to_datetime] raise: the run fails. *)
Lemma unreadable_time_fails (gmt7 : datetime -> Z) (pacific : Z -> Z)
  (raterhub : list Visit) (v : Visit) :
  In v raterhub ->
  has_task_id v = true ->
  to_datetime (convert_to_pacific gmt7 pacific (visit_date v) (visit_time v))
  = None ->
  result_df (map (add_columns gmt7 pacific) raterhub) = Failed.
Proof.
  intros Hv Hid Hnone. unfold result_df, has_task_id in *.
  destruct (extract_task_id (visit_url v)) as [t |] eqn:Et; [| discriminate].
  rewrite (traverse_none (set_date to_datetime) _
             (mkResultRow
                (convert_to_pacific gmt7 pacific (visit_date v)
                   (visit_time v)) (visit_url v) t)).
  - reflexivity.
  - unfold project_and_clean. apply filter_map_In.
    exists (add_columns gmt7 pacific v). split; [apply in_map, Hv |].
    unfold dropna. cbn [add_columns task_id]. rewrite Et. reflexivity.
  - unfold set_date. cbn [Date_Pacific]. rewrite Hnone. reflexivity.
Qed.

(** C2, on the table [malformed_time].  The time "9am" of the second row
    does not convert, and the placeholder with the reason takes the place
    of its Pacific time; the placeholder is not a date, and the run shows
    no table, not even for the first row, whose time converts. *)
Theorem failed_conversion_fails_the_run :
  convert_to_pacific bangkok us_pacific (mkDatetime 2024 3 16 0 0 0)
    (Some "9am")
  = "Error converting time: time data '2024-03-16 9am' does not match format '%Y-%m-%d %H:%M:%S'"
  /\ convert_to_pacific bangkok us_pacific (mkDatetime 2024 3 15 0 0 0)
       (Some "09:00:00")
     = "2024-03-14 19:00:00"
  /\ run malformed_time "March" 2024 = Failed.
Proof. repeat split; vm_compute; reflexivity. Qed.

(** C1, on the table [later_visit_first].  Two visits to one task reach
    the deduplication, the visit of 10:00 listed before the visit of
    09:00.  The table keeps the visit of 10:00 and drops the earlier one:
    the rows are not sorted by Pacific time before the duplicates are
    removed. *)
Theorem dedup_keeps_later_visit :
  run later_visit_first "March" 2024 = Results [later_row] 1 2
  /\ (exists raterhub,
        select_raterhub later_visit_first "March" 2024 = Some raterhub
        /\ project_and_clean (map (add_columns bangkok us_pacific) raterhub)
           = [later_row; earlier_row])
  /\ Task_ID earlier_row = Task_ID later_row
  /\ String.ltb (Date_Pacific earlier_row) (Date_Pacific later_row) = true
  /\ ~ keeps_earliest later_visit_first "March" 2024.
Proof.
  assert (Hrun : run later_visit_first "March" 2024
                 = Results [later_row] 1 2) by (vm_compute; reflexivity).
  split; [exact Hrun |]. split.
  { eexists. split; [vm_compute; reflexivity | vm_compute; reflexivity]. }
  split; [reflexivity |]. split; [vm_compute; reflexivity |].
  intros H.
  pose proof (H _ _ _ _ Hrun eq_refl later_row earlier_row) as C.
  assert (C' : String.leb (Date_Pacific later_row) (Date_Pacific earlier_row)
               = true).
  { apply C; [left; reflexivity | vm_compute; auto | reflexivity]. }
  vm_compute in C'. discriminate.
Qed.

(** C3, on the table [missing_urls].  Its one row of March has no URL, so
    the URL filter leaves no row; but the column of the URLs holds no
    text, [.str] raises on it, and the run is reported as a failure.
    With a URL that does not mention RaterHub in its place, the run
    reports that nothing was found. *)
Theorem missing_urls_fail_the_run :
  (forall h, In h (records missing_urls) ->
     str_contains_nocase "raterhub" (row_url h) = false)
  /\ str_accessor (map row_url (records missing_urls)) = false
  /\ run missing_urls "March" 2024 = Failed
  /\ run no_raterhub "March" 2024 = NoMatches.
Proof.
  split; [intros h [<- | []]; reflexivity |].
  repeat split; vm_compute; reflexivity.
Qed.

(** ** The theorems at work on the sample tables *)

Lemma task_ids_unique_witness :
  run busy_month "March" 2024 = Results busy_table 3 5
  /\ NoDup (map Task_ID busy_table).
Proof.
  assert (Hrun : run busy_month "March" 2024 = Results busy_table 3 5)
    by (vm_compute; reflexivity).
  split; [exact Hrun |].
  exact (task_ids_unique bangkok us_pacific _ _ _ _ _ _ Hrun).
Defined.

Lemma output_urls_match_witness :
  run one_visit "March" 2024 = Results [one_visit_row] 1 1
  /\ (exists h, In h (records one_visit)
                /\ row_url h = Some (URL one_visit_row))
  /\ contains_nocase "raterhub" (URL one_visit_row)
  /\ extract_task_id (URL one_visit_row) = Some (Task_ID one_visit_row)
  /\ exists p r, task_ids_at (URL one_visit_row) p (Task_ID one_visit_row) r.
Proof.
  assert (Hrun : run one_visit "March" 2024 = Results [one_visit_row] 1 1)
    by (vm_compute; reflexivity).
  split; [exact Hrun |].
  exact (output_urls_match bangkok us_pacific _ _ _ _ _ _ Hrun
           one_visit_row (or_introl eq_refl)).
Defined.

Lemma output_sorted_witness :
  run busy_month "March" 2024 = Results busy_table 3 5
  /\ StronglySorted (fun a b => String.leb a b = true)
       (map Date_Pacific busy_table).
Proof.
  assert (Hrun : run busy_month "March" 2024 = Results busy_table 3 5)
    by (vm_compute; reflexivity).
  split; [exact Hrun |].
  exact (output_sorted bangkok us_pacific _ _ _ _ _ _ Hrun).
Defined.

Lemma extract_task_id_leftmost_exact_case_witness :
  extract_task_id "https://raterhub.com/x?TASKIDS=123" = None
  /\ run capital_parameter "March" 2024 = Results [] 0 0
  /\ exists raterhub,
       select_raterhub capital_parameter "March" 2024 = Some raterhub
       /\ 0%nat = List.length (filter has_task_id raterhub)
       /\ (forall t,
             In t (map Task_ID (@nil (ResultRow string)))
             <-> exists v,
                   In v raterhub /\ extract_task_id (visit_url v) = Some t).
Proof.
  assert (Hrun : run capital_parameter "March" 2024 = Results [] 0 0)
    by (vm_compute; reflexivity).
  split; [| split; [exact Hrun |]].
  - apply (proj1 (proj2 (extract_task_id_leftmost_exact_case
                           bangkok us_pacific))).
    vm_compute. reflexivity.
  - exact (proj2 (proj2 (extract_task_id_leftmost_exact_case
                           bangkok us_pacific)) _ _ _ _ _ _ Hrun).
Defined.

(** * Further properties *)

(** ** Digits read back *)

Lemma digit_char_nat (d : Z) :
  0 <= d <= 9 -> nat_of_ascii (Chars.digit_char d) = Z.to_nat (48 + d).
Proof.
  intros H. unfold Chars.digit_char. apply nat_ascii_embedding. lia.
Qed.

Lemma digit_char_is_digit (d : Z) :
  0 <= d <= 9 -> Chars.is_digit (Chars.digit_char d) = true.
Proof.
  intros H. unfold Chars.is_digit, Chars.code.
  rewrite digit_char_nat by assumption.
  apply andb_true_iff. split; apply Z.leb_le; lia.
Qed.

Lemma digit_val_char (d : Z) :
  0 <= d <= 9 -> Chars.digit_val (Chars.digit_char d) = d.
Proof.
  intros H. unfold Chars.digit_val, Chars.code.
  rewrite digit_char_nat by assumption. lia.
Qed.

Lemma digit_val_range (c : ascii) :
  Chars.is_digit c = true -> 0 <= Chars.digit_val c <= 9.
Proof.
  unfold Chars.is_digit, Chars.digit_val. intros H.
  apply andb_true_iff in H. destruct H as [H1 H2].
  apply Z.leb_le in H1, H2. lia.
Qed.

Lemma digit_char_val (c : ascii) :
  Chars.is_digit c = true -> Chars.digit_char (Chars.digit_val c) = c.
Proof.
  intros H. pose proof (digit_val_range c H) as Hr.
  unfold Chars.digit_char, Chars.digit_val, Chars.code in *.
  replace (Z.to_nat (48 + (Z.of_nat (nat_of_ascii c) - 48)))
    with (nat_of_ascii c) by lia.
  apply ascii_nat_embedding.
Qed.

Lemma digit_is_not_space (c : ascii) :
  Chars.is_digit c = true -> Chars.is_space c = false.
Proof.
  unfold Chars.is_digit, Chars.is_space. intros H.
  apply andb_true_iff in H. destruct H as [H1 H2].
  apply Z.leb_le in H1, H2.
  apply orb_false_iff. split; apply andb_false_iff.
  - right. apply Z.leb_gt. lia.
  - right. apply Z.leb_gt. lia.
Qed.

(** A number on two columns is read back by [two_digits]. *)
Lemma two_digits_pad2 (lo hi n : Z) (r : string) :
  0 <= n < 100 -> lo <= n <= hi ->
  two_digits lo hi (Chars.pad2 n ++ r) = Some (n, r).
Proof.
  intros Hn Hr. unfold Chars.pad2, two_digits. cbn [append].
  assert (H1 : 0 <= n / 10 mod 10 <= 9)
    by (Z.to_euclidean_division_equations; lia).
  assert (H0 : 0 <= n mod 10 <= 9)
    by (Z.to_euclidean_division_equations; lia).
  rewrite !digit_char_is_digit, !digit_val_char by assumption.
  cbn [andb]. cbv zeta.
  replace (10 * (n / 10 mod 10) + n mod 10) with n
    by (Z.to_euclidean_division_equations; lia).
  destruct (Z.leb_spec lo n); [| lia].
  destruct (Z.leb_spec n hi); [| lia].
  reflexivity.
Qed.

Lemma four_digits_pad4 (n : Z) (r : string) :
  0 <= n < 10000 -> four_digits (Chars.pad4 n ++ r) = Some (n, r).
Proof.
  intros Hn. rewrite pad4_split, string_app_assoc by assumption.
  unfold four_digits.
  rewrite two_digits_pad2 by (Z.to_euclidean_division_equations; lia).
  cbn [bind].
  rewrite two_digits_pad2 by (Z.to_euclidean_division_equations; lia).
  cbn [bind]. f_equal. f_equal.
  Z.to_euclidean_division_equations; lia.
Qed.

(** What [two_digits] reads is the number on two columns. *)
Lemma two_digits_inv (lo hi n : Z) (s r : string) :
  two_digits lo hi s = Some (n, r) ->
  s = (Chars.pad2 n ++ r)%string /\ 0 <= n < 100.
Proof.
  unfold two_digits. destruct s as [| a [| b s]]; try discriminate.
  destruct (Chars.is_digit a) eqn:Ea; [| discriminate].
  destruct (Chars.is_digit b) eqn:Eb; [| discriminate].
  cbn [andb]. cbv zeta.
  pose proof (digit_val_range a Ea) as Ha.
  pose proof (digit_val_range b Eb) as Hb.
  pose proof (digit_char_val a Ea) as Ca.
  pose proof (digit_char_val b Eb) as Cb.
  revert Ca Cb Ha Hb.
  generalize (Chars.digit_val a) (Chars.digit_val b). intros x y Ca Cb Ha Hb.
  destruct ((lo <=? 10 * x + y) && (10 * x + y <=? hi)); [| discriminate].
  intros H. assert (Hn : n = 10 * x + y) by congruence.
  assert (Hs : s = r) by congruence. subst n s.
  split; [| lia]. unfold Chars.pad2. cbn [append].
  replace ((10 * x + y) / 10 mod 10) with x
    by (Z.to_euclidean_division_equations; lia).
  replace ((10 * x + y) mod 10) with y
    by (Z.to_euclidean_division_equations; lia).
  rewrite Ca, Cb. reflexivity.
Qed.

Lemma four_digits_inv (n : Z) (s r : string) :
  four_digits s = Some (n, r) ->
  s = (Chars.pad4 n ++ r)%string /\ 0 <= n < 10000.
Proof.
  unfold four_digits. intros H. bind_inv H. bind_inv H.
  apply two_digits_inv in E, E0.
  destruct E as [-> Hz], E0 as [-> Hz0].
  assert (Hn : n = 100 * z + z0) by congruence.
  assert (Hs : s1 = r) by congruence. subst n s1.
  split; [| lia].
  rewrite pad4_split, string_app_assoc by lia.
  replace ((100 * z + z0) / 100) with z
    by (Z.to_euclidean_division_equations; lia).
  replace ((100 * z + z0) mod 100) with z0
    by (Z.to_euclidean_division_equations; lia).
  reflexivity.
Qed.

(** ** [pd.to_datetime] and [strftime] *)

Lemma expect_inv (c : ascii) (s r : string) :
  expect c s = Some r -> s = String c r.
Proof.
  unfold expect. destruct s as [| a s]; [discriminate |].
  destruct (Ascii.eqb_spec a c) as [-> | _]; [| discriminate].
  intros [= ->]. reflexivity.
Qed.

Lemma expect_same (c : ascii) (r : string) : expect c (String c r) = Some r.
Proof. unfold expect. rewrite Ascii.eqb_refl. reflexivity. Qed.

Lemma string_app_nil_r (s : string) : (s ++ EmptyString)%string = s.
Proof. induction s as [| c s IH]; simpl; [reflexivity | now rewrite IH]. Qed.

Lemma iso_time_of_day_inv (s : string) (h mi se : Z) :
  iso_time_of_day s = Some (h, mi, se) ->
  (s = EmptyString /\ h = 0 /\ mi = 0 /\ se = 0)
  \/ s = (" " ++ Chars.pad2 h ++ ":" ++ Chars.pad2 mi ++ ":"
          ++ Chars.pad2 se)%string.
Proof.
  unfold iso_time_of_day. destruct s as [| c s]; intros H.
  - left. injection H as <- <- <-. auto.
  - right. bind_inv1 H. apply expect_inv in E. rewrite E. clear E.
    bind_inv H. apply two_digits_inv in E. destruct E as [-> _].
    bind_inv1 H. apply expect_inv in E. rewrite E. clear E.
    bind_inv H. apply two_digits_inv in E. destruct E as [-> _].
    bind_inv1 H. apply expect_inv in E. rewrite E. clear E.
    bind_inv H. apply two_digits_inv in E. destruct E as [-> _].
    match type of H with
    | match ?x with _ => _ end = _ => destruct x; [| discriminate]
    end.
    injection H as <- <- <-. rewrite string_app_nil_r. reflexivity.
Qed.

(** The text that [pd.to_datetime] reads is the rendering of what it
    returns, with or without the time of day. *)
Lemma to_datetime_strftime (s : string) (t : datetime) :
  to_datetime s = Some t ->
  s = strftime t
  \/ (s = strftime_date t /\ hour t = 0 /\ minute t = 0 /\ second t = 0).
Proof.
  unfold to_datetime. intros H.
  bind_inv H. apply four_digits_inv in E. destruct E as [-> _].
  bind_inv1 H. apply expect_inv in E. rewrite E. clear E.
  bind_inv H. apply two_digits_inv in E. destruct E as [-> _].
  bind_inv1 H. apply expect_inv in E. rewrite E. clear E.
  bind_inv H. apply two_digits_inv in E. destruct E as [-> _].
  match type of H with
  | bind ?e _ = _ => destruct e as [[[h mi] se] |] eqn:Et
  end; cbn [bind] in H; [| discriminate].
  match type of H with
  | (if ?c then _ else _) = _ => destruct c; [| discriminate]
  end.
  injection H as <-.
  unfold strftime, strftime_date. cbn [year month day hour minute second].
  rewrite !string_app_assoc. cbn [append].
  apply iso_time_of_day_inv in Et.
  destruct Et as [(-> & -> & -> & ->) | ->].
  - right. rewrite string_app_nil_r. auto.
  - left. reflexivity.
Qed.

(** A time stamp that pandas holds is read back from its rendering. *)
Lemma strftime_to_datetime (t : datetime) :
  valid_datetime t = true -> timestamp_in_bounds t = true -> printable t ->
  to_datetime (strftime t) = Some t.
Proof.
  intros Hv Hb (Hy & Hm & Hd & Hh & Hmi & Hs).
  unfold to_datetime, strftime, strftime_date.
  rewrite !string_app_assoc.
  rewrite four_digits_pad4 by assumption. cbn [bind append].
  rewrite expect_same. cbn [bind].
  rewrite two_digits_pad2 by lia. cbn [bind append].
  rewrite expect_same. cbn [bind].
  rewrite two_digits_pad2 by lia. cbn [bind append].
  unfold iso_time_of_day.
  rewrite expect_same. cbn [bind].
  rewrite two_digits_pad2 by lia. cbn [bind append].
  rewrite expect_same. cbn [bind].
  rewrite two_digits_pad2 by lia. cbn [bind append].
  rewrite expect_same. cbn [bind].
  rewrite <- (string_app_nil_r (Chars.pad2 (second t))).
  rewrite two_digits_pad2 by lia. cbn [bind].
  destruct t as [y m d h mi se]. cbn [year month day hour minute second] in *.
  rewrite Hv, Hb. reflexivity.
Qed.

(** ** The table and the cleaned rows *)

Lemma strftime_length (t : datetime) : String.length (strftime t) = 19%nat.
Proof. reflexivity. Qed.

Lemma strftime_date_length (t : datetime) :
  String.length (strftime_date t) = 10%nat.
Proof. reflexivity. Qed.

(** [convert_to_pacific] returns the placeholder of a failure or the
    rendering of a time stamp. *)
Lemma convert_to_pacific_cases (gmt7 : datetime -> Z) (pacific : Z -> Z)
  (date : datetime) (time : cell) :
  (exists reason,
      convert_to_pacific gmt7 pacific date time
      = ("Error converting time: " ++ reason)%string)
  \/ exists p, convert_to_pacific gmt7 pacific date time = strftime p.
Proof.
  unfold convert_to_pacific. cbv zeta.
  destruct (strptime _) as [t | e]; [| left; exists e; reflexivity].
  match goal with
  | |- context [if ?c then _ else _] => destruct c
  end.
  - right. eauto.
  - left. exists "date value out of range". reflexivity.
Qed.

(** The text that [convert_to_pacific] returned comes back unchanged from
    [pd.to_datetime] followed by [strftime]. *)
Lemma convert_to_pacific_rendered (gmt7 : datetime -> Z) (pacific : Z -> Z)
  (date : datetime) (time : cell) (ts : datetime) :
  to_datetime (convert_to_pacific gmt7 pacific date time) = Some ts ->
  strftime ts = convert_to_pacific gmt7 pacific date time.
Proof.
  intros H.
  destruct (convert_to_pacific_cases gmt7 pacific date time)
    as [(e & He) | (p & Hp)].
  - rewrite He in H. rewrite placeholder_not_a_date in H. discriminate.
  - rewrite Hp in *. apply to_datetime_strftime in H.
    destruct H as [H | (H & _)]; [auto |].
    apply (f_equal String.length) in H.
    rewrite strftime_length, strftime_date_length in H. discriminate.
Qed.

Section KeptRows.

Context {A B : Type} (key : A -> string) (key' : B -> string)
  (R : A -> B -> Prop).
Hypothesis R_key : forall a b, R a b -> key a = key' b.

Lemma drop_duplicates_from_Forall2 (seen : list string) (l : list A)
  (l' : list B) :
  Forall2 R l l' ->
  Forall2 R (drop_duplicates_from key seen l)
    (drop_duplicates_from key' seen l').
Proof.
  intros H. revert seen.
  induction H as [| a b l l' Hab _ IH]; intros seen; simpl; [constructor |].
  rewrite <- (R_key a b Hab).
  destruct (existsb (String.eqb (key a)) seen); [apply IH |].
  constructor; [exact Hab | apply IH].
Qed.

End KeptRows.

Lemma Forall2_map_eq {A B : Type} (f : B -> A) (l : list A) (l' : list B) :
  Forall2 (fun a b => f b = a) l l' -> map f l' = l.
Proof. induction 1; simpl; congruence. Qed.

Lemma Forall2_impl_In {A B : Type} (R S : A -> B -> Prop) (l : list A)
  (l' : list B) :
  (forall a b, In a l -> R a b -> S a b) ->
  Forall2 R l l' -> Forall2 S l l'.
Proof.
  intros H F. induction F as [| a b l l' Hab _ IH]; constructor.
  - apply H; [left; reflexivity | exact Hab].
  - apply IH. intros a' b' Hin. apply H. right. exact Hin.
Qed.

Lemma Forall2_length_eq {A B : Type} (R : A -> B -> Prop) (l : list A)
  (l' : list B) :
  Forall2 R l l' -> List.length l = List.length l'.
Proof. induction 1; simpl; congruence. Qed.

(** The table is the cleaned rows without their later duplicates, in
    another order. *)
Lemma result_df_permutation (gmt7 : datetime -> Z) (pacific : Z -> Z)
  (raterhub : list Visit) (table : list (ResultRow string))
  (total_tasks total_visits : nat) :
  result_df (map (add_columns gmt7 pacific) raterhub)
  = Results table total_tasks total_visits ->
  Permutation table
    (drop_duplicates Task_ID
       (project_and_clean (map (add_columns gmt7 pacific) raterhub))).
Proof.
  intros H. apply result_df_results in H.
  destruct H as (parsed & Hp & -> & _ & _).
  apply traverse_Forall2 in Hp.
  assert (Hr : Forall2
                 (fun c p => render p = c /\ Task_ID c = Task_ID p)
                 (project_and_clean (map (add_columns gmt7 pacific) raterhub))
                 parsed).
  { revert Hp. apply Forall2_impl_In. intros c p Hc Hs.
    unfold project_and_clean in Hc. apply filter_map_In in Hc.
    destruct Hc as (r & Hr & Hd).
    apply in_map_iff in Hr. destruct Hr as (v & <- & _).
    unfold dropna in Hd. cbn [add_columns task_id visit pacific_time] in Hd.
    destruct (extract_task_id (visit_url v)) as [t |]; [| discriminate].
    injection Hd as <-. unfold set_date in Hs.
    cbn [Date_Pacific URL Task_ID] in Hs.
    destruct (to_datetime _) as [ts |] eqn:Ets; [| discriminate].
    cbn [bind] in Hs. injection Hs as <-.
    unfold render. cbn [Date_Pacific URL Task_ID].
    rewrite (convert_to_pacific_rendered _ _ _ _ _ Ets). auto. }
  assert (Hd : Forall2
                 (fun c p => render p = c /\ Task_ID c = Task_ID p)
                 (drop_duplicates Task_ID
                    (project_and_clean
                       (map (add_columns gmt7 pacific) raterhub)))
                 (drop_duplicates Task_ID parsed)).
  { apply drop_duplicates_from_Forall2; [| exact Hr].
    intros a b [_ Hk]. exact Hk. }
  assert (E : map render (drop_duplicates Task_ID parsed)
              = drop_duplicates Task_ID
                  (project_and_clean
                     (map (add_columns gmt7 pacific) raterhub))).
  { apply Forall2_map_eq. revert Hd. apply Forall2_impl_In.
    intros a b _ [Hab _]. exact Hab. }
  rewrite <- E. apply Permutation_map, sort_values_perm.
Qed.

Section Provenance.

Variable gmt7 : datetime -> Z.
Variable pacific : Z -> Z.

(** C5.  Every row of the table is the row of an uploaded row of the
    selected month and year: an uploaded row whose date, once parsed, has
    the number of the selected month and the selected year, whose URL is
    the URL of the row and gives its task identifier, and whose date and
    time [convert_to_pacific] turns into the very time the row shows.
    No row made from a row of another month or year is shown. *)
Theorem output_rows_in_selected_month (df : DataFrame)
  (selected_month : string) (selected_year : Z)
  (table : list (ResultRow string)) (total_tasks total_visits : nat) :
  extractor gmt7 pacific df selected_month selected_year
  = Results table total_tasks total_visits ->
  forall row, In row table ->
  exists h s d i u t,
    In h (records df)
    /\ row_date h = Some s
    /\ to_datetime s = Some d
    /\ list_index selected_month months = Some i
    /\ month d = i + 1
    /\ year d = selected_year
    /\ row_url h = Some u
    /\ extract_task_id u = Some t
    /\ row = mkResultRow (convert_to_pacific gmt7 pacific d (row_time h)) u t.
Proof.
  intros H row Hrow. apply extractor_results in H.
  destruct H as (raterhub & _ & Hsel & _ & H).
  destruct (result_df_In _ _ _ _ _ _ _ H Hrow)
    as (v & ts & Hv & Hu & Hid & Hts & Hd).
  destruct (select_raterhub_In _ _ _ _ _ Hsel Hv)
    as (h & s & i & Hh & Hi & Hs & Hdate & Hm & Hy & Htime & Hurl & _).
  exists h, s, (visit_date v), i, (visit_url v), (Task_ID row).
  repeat split; auto.
  rewrite Htime. rewrite <- (convert_to_pacific_rendered _ _ _ _ _ Hts).
  destruct row as [date url task]. cbn [Date_Pacific URL Task_ID] in *.
  congruence.
Qed.

End Provenance.

Lemma output_rows_in_selected_month_witness :
  run one_visit "March" 2024 = Results [one_visit_row] 1 1
  /\ exists h s d i u t,
       In h (records one_visit)
       /\ row_date h = Some s
       /\ to_datetime s = Some d
       /\ list_index "March" months = Some i
       /\ month d = i + 1
       /\ year d = 2024
       /\ row_url h = Some u
       /\ extract_task_id u = Some t
       /\ one_visit_row
          = mkResultRow (convert_to_pacific bangkok us_pacific d (row_time h))
              u t.
Proof.
  assert (Hrun : run one_visit "March" 2024 = Results [one_visit_row] 1 1)
    by (vm_compute; reflexivity).
  split; [exact Hrun |].
  exact (output_rows_in_selected_month bangkok us_pacific _ _ _ _ _ _ Hrun
           one_visit_row (or_introl eq_refl)).
Defined.

(** ** The statistics *)

Lemma drop_duplicates_from_length {A : Type} (key : A -> string)
  (seen : list string) (l : list A) :
  (List.length (drop_duplicates_from key seen l) <= List.length l)%nat.
Proof.
  revert seen. induction l as [| a l IH]; intros seen; simpl; [lia |].
  destruct (existsb (String.eqb (key a)) seen).
  - specialize (IH seen). lia.
  - simpl. specialize (IH (key a :: seen)). lia.
Qed.

Lemma drop_duplicates_from_all {A : Type} (key : A -> string)
  (seen : list string) (l : list A) :
  List.length (drop_duplicates_from key seen l) = List.length l
  <-> NoDup (map key l) /\ forall a, In a l -> ~ In (key a) seen.
Proof.
  revert seen. induction l as [| a l IH]; intros seen; simpl.
  - split; [intros _; split; [constructor | intros a []] | reflexivity].
  - destruct (existsb (String.eqb (key a)) seen) eqn:E.
    + split.
      * intros H.
        pose proof (drop_duplicates_from_length key seen l). lia.
      * intros [_ H]. exfalso. apply (H a); [auto |].
        apply existsb_eqb_In. exact E.
    + simpl. split.
      * intros H. injection H as H. apply IH in H. destruct H as [Hn Hs].
        split.
        -- constructor; [| exact Hn].
           intros Hin. apply in_map_iff in Hin.
           destruct Hin as (b & Hk & Hb).
           apply (Hs b Hb). left. symmetry. exact Hk.
        -- intros b [<- | Hb] Hin.
           ++ apply existsb_eqb_In in Hin. congruence.
           ++ apply (Hs b Hb). right. exact Hin.
      * intros [Hn Hs]. f_equal. apply IH.
        inversion Hn as [| ? ? Ha Hn']; subst. split; [exact Hn' |].
        intros b Hb [Hk | Hin].
        -- apply Ha. rewrite Hk. apply in_map. exact Hb.
        -- apply (Hs b); auto.
Qed.

Lemma result_df_totals (gmt7 : datetime -> Z) (pacific : Z -> Z)
  (raterhub : list Visit) (table : list (ResultRow string))
  (total_tasks total_visits : nat) :
  result_df (map (add_columns gmt7 pacific) raterhub)
  = Results table total_tasks total_visits ->
  let rows := project_and_clean (map (add_columns gmt7 pacific) raterhub) in
  total_tasks = List.length table
  /\ total_visits = List.length rows
  /\ (total_tasks <= total_visits)%nat
  /\ (total_tasks = total_visits <-> NoDup (map Task_ID rows)).
Proof.
  intros H rows.
  pose proof (result_df_permutation _ _ _ _ _ _ H) as Hperm.
  apply Permutation_length in Hperm.
  apply result_df_results in H. destruct H as (parsed & _ & _ & -> & ->).
  fold rows in Hperm |- *. rewrite Hperm.
  repeat split.
  - apply drop_duplicates_from_length.
  - intros E. apply (drop_duplicates_from_all Task_ID []) in E. apply E.
  - intros Hn. apply (drop_duplicates_from_all Task_ID []).
    split; [exact Hn | intros a _ []].
Qed.

Section Statistics.

Variable gmt7 : datetime -> Z.
Variable pacific : Z -> Z.

(** X1.  The number of tasks is the number of rows of the table and never
    exceeds the number of visits, which is the number of cleaned rows; the
    two are equal exactly when no task identifier is repeated among the
    cleaned rows.  The line on removed duplicates is written exactly when
    they differ, and its number added to the tasks gives the visits. *)
Theorem statistics_consistent (df : DataFrame) (selected_month : string)
  (selected_year : Z) (table : list (ResultRow string))
  (total_tasks total_visits : nat) :
  extractor gmt7 pacific df selected_month selected_year
  = Results table total_tasks total_visits ->
  exists raterhub,
    select_raterhub df selected_month selected_year = Some raterhub
    /\ let rows :=
         project_and_clean (map (add_columns gmt7 pacific) raterhub) in
       total_tasks = List.length table
       /\ total_visits = List.length rows
       /\ (total_tasks <= total_visits)%nat
       /\ (total_tasks = total_visits <-> NoDup (map Task_ID rows))
       /\ match duplicates_removed total_tasks total_visits with
          | Some k => (0 < k)%nat /\ (total_tasks + k = total_visits)%nat
          | None => total_tasks = total_visits
          end.
Proof.
  intros H. apply extractor_results in H.
  destruct H as (raterhub & _ & Hsel & _ & H).
  exists raterhub. split; [exact Hsel |]. cbv zeta.
  destruct (result_df_totals _ _ _ _ _ _ H) as (Ht & Hv & Hle & Heq).
  repeat split; auto; try apply Heq.
  unfold duplicates_removed.
  destruct (Nat.ltb_spec total_tasks total_visits); lia.
Qed.

(** X2.  The table is the cleaned rows without their later duplicates, in
    another order: each row of the table is a cleaned row as it was, with
    the text that [convert_to_pacific] returned, and each cleaned row
    that no earlier row duplicates is in the table once. *)
Theorem table_is_deduplicated_rows (df : DataFrame)
  (selected_month : string) (selected_year : Z)
  (table : list (ResultRow string)) (total_tasks total_visits : nat) :
  extractor gmt7 pacific df selected_month selected_year
  = Results table total_tasks total_visits ->
  exists raterhub,
    select_raterhub df selected_month selected_year = Some raterhub
    /\ Permutation table
         (drop_duplicates Task_ID
            (project_and_clean (map (add_columns gmt7 pacific) raterhub))).
Proof.
  intros H. apply extractor_results in H.
  destruct H as (raterhub & _ & Hsel & _ & H).
  exists raterhub. split; [exact Hsel |].
  exact (result_df_permutation _ _ _ _ _ _ H).
Qed.

End Statistics.

(** ** Row by row *)

Lemma traverse_app {A B : Type} (f : A -> option B) (l1 l2 : list A) :
  traverse f (l1 ++ l2)
  = (a <- traverse f l1 ;; b <- traverse f l2 ;; Some (a ++ b)).
Proof.
  induction l1 as [| x l1 IH]; simpl.
  - destruct (traverse f l2); reflexivity.
  - destruct (f x) as [y |]; cbn [bind]; [| reflexivity].
    rewrite IH. destruct (traverse f l1); cbn [bind]; [| reflexivity].
    destruct (traverse f l2); reflexivity.
Qed.

Lemma filter_map_app {A B : Type} (f : A -> option B) (l1 l2 : list A) :
  filter_map f (l1 ++ l2) = filter_map f l1 ++ filter_map f l2.
Proof.
  induction l1 as [| x l1 IH]; simpl; [reflexivity |].
  destruct (f x); simpl; congruence.
Qed.

(** [raterhub_df] row by row. *)
Lemma raterhub_df_rows (month_num selected_year : Z)
  (rows : list HistoryRecord) :
  match traverse to_datetime_cell (map row_date rows) with
  | Some dates =>
      select_rows month_num selected_year rows
      = Some (filter_map is_raterhub
                (filter_map (in_month month_num selected_year)
                   (combine dates rows)))
  | None => select_rows month_num selected_year rows = None
  end.
Proof.
  unfold select_rows. induction rows as [| r rows IH]; simpl.
  - reflexivity.
  - assert (Hr : row_visit month_num selected_year r
                 = (od <- to_datetime_cell (row_date r) ;;
                    Some match in_month month_num selected_year (od, r) with
                         | Some x => is_raterhub x
                         | None => None
                         end)) by reflexivity.
    rewrite Hr. clear Hr.
    destruct (to_datetime_cell (row_date r)) as [od |]; cbn [bind];
      [| reflexivity].
    destruct (traverse to_datetime_cell (map row_date rows)) as [dates |];
      cbn [bind].
    + destruct (traverse (row_visit month_num selected_year) rows)
        as [vs |]; cbn [bind] in *; [| discriminate].
      injection IH as IH. simpl.
      destruct (in_month month_num selected_year (od, r)) as [x |]; simpl.
      * destruct (is_raterhub x); simpl; congruence.
      * congruence.
    + destruct (traverse (row_visit month_num selected_year) rows);
        cbn [bind] in *; [discriminate | reflexivity].
Qed.

Lemma select_raterhub_rows (df : DataFrame) (selected_month : string)
  (selected_year : Z) :
  select_raterhub df selected_month selected_year
  = (i <- list_index selected_month months ;;
     vs <- select_rows (i + 1) selected_year (records df) ;;
     if str_accessor (map row_url (records df)) then Some vs else None).
Proof.
  unfold select_raterhub.
  destruct (list_index selected_month months) as [i |]; cbn [bind];
    [| reflexivity].
  pose proof (raterhub_df_rows (i + 1) selected_year (records df)) as H.
  destruct (traverse to_datetime_cell (map row_date (records df)));
    cbn [bind]; rewrite H; reflexivity.
Qed.

(** [.str] works on a column that has a text. *)
Lemma str_accessor_In (column : list cell) (u : string) :
  In (Some u) column -> str_accessor column = true.
Proof.
  intros H. destruct column as [| c column]; [reflexivity |].
  unfold str_accessor. apply existsb_exists. exists (Some u). auto.
Qed.

Lemma mentions_raterhub_str_accessor (rows : list HistoryRecord) :
  mentions_raterhub rows -> str_accessor (map row_url rows) = true.
Proof.
  intros (q & Hq & Hu). destruct (row_url q) as [u |] eqn:E;
    [| discriminate].
  apply (str_accessor_In _ u). rewrite <- E. apply in_map. exact Hq.
Qed.

Lemma str_accessor_perm (column column' : list cell) :
  Permutation column column' ->
  str_accessor column = str_accessor column'.
Proof.
  intros H.
  destruct column as [| c column].
  - apply Permutation_nil in H. subst. reflexivity.
  - destruct column' as [| c' column'].
    + apply Permutation_sym, Permutation_nil in H. discriminate.
    + unfold str_accessor. apply eq_true_iff_eq.
      rewrite !existsb_exists.
      split; intros (x & Hx & Hs); exists x; split; auto.
      * eapply Permutation_in; eassumption.
      * eapply Permutation_in; [apply Permutation_sym |]; eassumption.
Qed.

Lemma select_rows_skip (month_num selected_year : Z)
  (l1 l2 : list HistoryRecord) (r : HistoryRecord) :
  row_visit month_num selected_year r = Some None ->
  select_rows month_num selected_year (l1 ++ r :: l2)
  = select_rows month_num selected_year (l1 ++ l2).
Proof.
  intros Hr. unfold select_rows. rewrite !traverse_app. simpl. rewrite Hr.
  destruct (traverse (row_visit month_num selected_year) l1) as [a |];
    cbn [bind]; [| reflexivity].
  destruct (traverse (row_visit month_num selected_year) l2) as [b |];
    cbn [bind]; [| reflexivity].
  rewrite !filter_map_app. reflexivity.
Qed.

Section Rows.

Variable gmt7 : datetime -> Z.
Variable pacific : Z -> Z.

(** X3.  A row without a date, a row of another month or year, and a row
    whose URL is missing or does not mention RaterHub change nothing:
    the run ends as it does without the row, provided its date, when it
    has one, is readable.  The dates are written alike and another row
    mentions RaterHub, so that pandas reads the columns with the row as
    it does without. *)
Theorem skipped_row_changes_nothing (cols : list string)
  (l1 l2 : list HistoryRecord) (r : HistoryRecord)
  (selected_month : string) (selected_year : Z) :
  date_only_cells (l1 ++ r :: l2) ->
  mentions_raterhub (l1 ++ l2) ->
  (row_date r = None
   \/ exists s d,
        row_date r = Some s /\ to_datetime s = Some d
        /\ ((forall i, list_index selected_month months = Some i ->
                       month d <> i + 1)
            \/ year d <> selected_year
            \/ str_contains_nocase "raterhub" (row_url r) = false)) ->
  extractor gmt7 pacific (mkDataFrame cols (l1 ++ r :: l2))
    selected_month selected_year
  = extractor gmt7 pacific (mkDataFrame cols (l1 ++ l2))
      selected_month selected_year.
Proof.
  intros _ Hurl Hr. unfold extractor, has_required_columns.
  cbn [columns]. rewrite !select_raterhub_rows. cbn [records].
  rewrite (mentions_raterhub_str_accessor _ Hurl).
  assert (Hurl' : mentions_raterhub (l1 ++ r :: l2)).
  { destruct Hurl as (q & Hq & Hu). exists q. split; [| exact Hu].
    apply in_app_or in Hq. apply in_or_app. simpl. tauto. }
  rewrite (mentions_raterhub_str_accessor _ Hurl').
  destruct (list_index selected_month months) as [i |] eqn:Ei;
    cbn [bind]; [| reflexivity].
  rewrite select_rows_skip; [reflexivity |].
  unfold row_visit, in_month. cbn [fst snd].
  destruct Hr as [-> | (s & d & -> & Hd & Hskip)]; [reflexivity |].
  unfold to_datetime_cell. rewrite Hd. cbn [bind].
  destruct Hskip as [Hm | [Hy | Hu]].
  - specialize (Hm i eq_refl).
    destruct (Z.eqb_spec (month d) (i + 1)); [contradiction | reflexivity].
  - destruct (Z.eqb_spec (year d) selected_year); [contradiction |].
    rewrite andb_false_r. reflexivity.
  - destruct ((month d =? i + 1) && (year d =? selected_year));
      [| reflexivity].
    unfold is_raterhub. cbn [fst snd]. rewrite Hu. reflexivity.
Qed.

End Rows.

(** ** The order of the uploaded rows *)

Lemma traverse_perm {A B : Type} (f : A -> option B) (l l' : list A) :
  Permutation l l' ->
  match traverse f l, traverse f l' with
  | Some a, Some b => Permutation a b
  | None, None => True
  | _, _ => False
  end.
Proof.
  induction 1 as [| x l l' _ IH | x y l | l l' l'' _ IH1 _ IH2]; simpl.
  - constructor.
  - destruct (f x); cbn [bind]; [| exact I].
    destruct (traverse f l), (traverse f l'); cbn [bind]; auto.
  - destruct (f x), (f y); cbn [bind]; try exact I.
    destruct (traverse f l); cbn [bind]; [apply perm_swap | exact I].
  - destruct (traverse f l), (traverse f l'), (traverse f l'');
      try contradiction; try exact I.
    eapply Permutation_trans; eassumption.
Qed.

Lemma filter_map_perm {A B : Type} (f : A -> option B) (l l' : list A) :
  Permutation l l' -> Permutation (filter_map f l) (filter_map f l').
Proof.
  induction 1 as [| x l l' _ IH | x y l | l l' l'' _ IH1 _ IH2]; simpl.
  - constructor.
  - destruct (f x); [constructor |]; exact IH.
  - destruct (f x), (f y); try reflexivity. apply perm_swap.
  - eapply Permutation_trans; eassumption.
Qed.

Lemma select_rows_perm (month_num selected_year : Z)
  (rows rows' : list HistoryRecord) :
  Permutation rows rows' ->
  match select_rows month_num selected_year rows,
        select_rows month_num selected_year rows' with
  | Some a, Some b => Permutation a b
  | None, None => True
  | _, _ => False
  end.
Proof.
  intros H. unfold select_rows.
  pose proof (traverse_perm (row_visit month_num selected_year) _ _ H) as P.
  destruct (traverse _ rows), (traverse _ rows'); cbn [bind]; auto.
  apply filter_map_perm. exact P.
Qed.

Lemma result_df_cases (raterhub : list TaskRow) :
  match result_df raterhub with
  | Failed =>
      traverse (set_date to_datetime) (project_and_clean raterhub) = None
  | Results _ _ _ =>
      traverse (set_date to_datetime) (project_and_clean raterhub) <> None
  | _ => False
  end.
Proof.
  unfold result_df. destruct (traverse _ _); [discriminate | reflexivity].
Qed.

Lemma NoDup_same_length {A : Type} (l l' : list A) :
  NoDup l -> NoDup l' -> (forall a, In a l <-> In a l') ->
  List.length l = List.length l'.
Proof.
  intros H H' Hin. apply Permutation_length.
  apply NoDup_Permutation; assumption.
Qed.

Lemma result_df_same_summary (gmt7 : datetime -> Z) (pacific : Z -> Z)
  (l l' : list Visit) :
  Permutation l l' ->
  same_summary (result_df (map (add_columns gmt7 pacific) l))
    (result_df (map (add_columns gmt7 pacific) l')).
Proof.
  intros H.
  assert (Hc : Permutation
                 (project_and_clean (map (add_columns gmt7 pacific) l))
                 (project_and_clean (map (add_columns gmt7 pacific) l'))).
  { apply filter_map_perm, Permutation_map, H. }
  pose proof (traverse_perm (set_date to_datetime) _ _ Hc) as Ht.
  pose proof (result_df_cases (map (add_columns gmt7 pacific) l)) as C.
  pose proof (result_df_cases (map (add_columns gmt7 pacific) l')) as C'.
  destruct (result_df (map (add_columns gmt7 pacific) l))
    as [| | | t n v] eqn:E; try contradiction;
    destruct (result_df (map (add_columns gmt7 pacific) l'))
      as [| | | t' n' v'] eqn:E'; try contradiction; simpl.
  - exact I.
  - rewrite C in Ht. destruct (traverse _ _); [contradiction | congruence].
  - rewrite C' in Ht. destruct (traverse _ _); [contradiction | congruence].
  - assert (Hi : forall i, In i (map Task_ID t) <-> In i (map Task_ID t')).
    { intros i. rewrite <- (result_df_task_ids _ _ _ _ i E).
      rewrite <- (result_df_task_ids _ _ _ _ i E').
      split; apply Permutation_in, Permutation_map;
        [exact Hc | apply Permutation_sym, Hc]. }
    pose proof (result_df_NoDup _ _ _ _ E) as Hn.
    pose proof (result_df_NoDup _ _ _ _ E') as Hn'.
    pose proof (NoDup_same_length _ _ Hn Hn' Hi) as Hl.
    rewrite !length_map in Hl.
    apply result_df_results in E, E'.
    destruct E as (_ & _ & _ & -> & ->), E' as (_ & _ & _ & -> & ->).
    repeat split; auto; try apply Hi.
    apply Permutation_length. exact Hc.
Qed.

Section RowOrder.

Variable gmt7 : datetime -> Z.
Variable pacific : Z -> Z.

(** X4.  When the dates of the uploaded rows are all written on
    [YYYY-MM-DD], so that pandas reads the column of the dates in that
    form whichever row comes first, listing the rows in another order
    changes neither how the run ends, nor the task identifiers of the
    table, nor the number of tasks, nor the number of visits. *)
Theorem row_order_keeps_summary (cols : list string)
  (rows rows' : list HistoryRecord) (selected_month : string)
  (selected_year : Z) :
  date_only_cells rows ->
  Permutation rows rows' ->
  same_summary
    (extractor gmt7 pacific (mkDataFrame cols rows) selected_month
       selected_year)
    (extractor gmt7 pacific (mkDataFrame cols rows') selected_month
       selected_year).
Proof.
  intros _ H. unfold extractor, has_required_columns. cbn [columns].
  destruct (forallb _ required_columns); cbn [negb]; [| exact I].
  rewrite !select_raterhub_rows. cbn [records].
  rewrite <- (str_accessor_perm _ _ (Permutation_map row_url H)).
  destruct (list_index selected_month months) as [i |]; cbn [bind];
    [| exact I].
  pose proof (select_rows_perm (i + 1) selected_year _ _ H) as P.
  destruct (select_rows (i + 1) selected_year rows) as [l |],
           (select_rows (i + 1) selected_year rows') as [l' |];
    try contradiction; cbn [bind]; [| exact I].
  destruct (str_accessor (map row_url rows)); [| exact I].
  destruct l as [| v l], l' as [| v' l'].
  - exact I.
  - apply Permutation_nil in P. discriminate.
  - apply Permutation_sym, Permutation_nil in P. discriminate.
  - apply result_df_same_summary. exact P.
Qed.

End RowOrder.

(** ** Tasks by day *)

Lemma date_compare_eq (a b : Z * Z * Z) : date_compare a b = Eq -> a = b.
Proof.
  destruct a as [[y m] d], b as [[y' m'] d']. unfold date_compare.
  cbn [lex_compare].
  destruct (Z.compare_spec y y'); try discriminate.
  destruct (Z.compare_spec m m'); try discriminate.
  destruct (Z.compare_spec d d'); try discriminate.
  intros _. congruence.
Qed.

Lemma date_compare_refl (a : Z * Z * Z) : date_compare a a = Eq.
Proof.
  destruct a as [[y m] d]. unfold date_compare. cbn [lex_compare].
  rewrite !Z.compare_refl. reflexivity.
Qed.

Lemma date_compare_gt (a b : Z * Z * Z) :
  date_compare a b = Gt -> date_lt b a.
Proof.
  destruct a as [[y m] d], b as [[y' m'] d']. unfold date_lt, date_compare.
  cbn [lex_compare].
  destruct (Z.compare_spec y y'), (Z.compare_spec y' y); try lia;
    try discriminate; try reflexivity.
  destruct (Z.compare_spec m m'), (Z.compare_spec m' m); try lia;
    try discriminate; try reflexivity.
  destruct (Z.compare_spec d d'), (Z.compare_spec d' d); try lia;
    try discriminate; try reflexivity.
Qed.

Lemma date_lt_trans (a b c : Z * Z * Z) :
  date_lt a b -> date_lt b c -> date_lt a c.
Proof.
  destruct a as [[y m] d], b as [[y' m'] d'], c as [[y'' m''] d''].
  unfold date_lt, date_compare. cbn [lex_compare].
  destruct (Z.compare_spec y y'), (Z.compare_spec y' y''),
    (Z.compare_spec y y''); try lia; try discriminate; try reflexivity.
  destruct (Z.compare_spec m m'), (Z.compare_spec m' m''),
    (Z.compare_spec m m''); try lia; try discriminate; try reflexivity.
  destruct (Z.compare_spec d d'), (Z.compare_spec d' d''),
    (Z.compare_spec d d''); try lia; try discriminate; try reflexivity.
Qed.

Lemma date_lt_irrefl (a : Z * Z * Z) : ~ date_lt a a.
Proof. unfold date_lt. rewrite date_compare_refl. discriminate. Qed.

Lemma count_in_sum (k : Z * Z * Z) (groups : list (Z * Z * Z * nat)) :
  sum_counts (count_in k groups) = S (sum_counts groups).
Proof.
  induction groups as [| [k' n] rest IH]; simpl; [reflexivity |].
  destruct (date_compare k k'); simpl; [reflexivity | reflexivity |].
  rewrite IH. lia.
Qed.

Lemma count_in_keys (k x : Z * Z * Z) (groups : list (Z * Z * Z * nat)) :
  In x (map fst (count_in k groups)) <-> x = k \/ In x (map fst groups).
Proof.
  induction groups as [| [k' n] rest IH]; simpl.
  - intuition.
  - destruct (date_compare k k') eqn:E; simpl.
    + apply date_compare_eq in E. subst. intuition.
    + intuition.
    + rewrite IH. intuition.
Qed.

Lemma count_in_sorted (k : Z * Z * Z) (groups : list (Z * Z * Z * nat)) :
  StronglySorted date_lt (map fst groups) ->
  StronglySorted date_lt (map fst (count_in k groups)).
Proof.
  induction groups as [| [k' n] rest IH]; simpl; intros Hs.
  - constructor; constructor.
  - inversion Hs as [| ? ? Hrest Hall]; subst.
    destruct (date_compare k k') eqn:E; simpl.
    + exact Hs.
    + constructor; [exact Hs |]. constructor; [exact E |].
      eapply Forall_impl; [| exact Hall].
      intros c Hc. eapply date_lt_trans; eauto.
    + constructor; [apply IH; exact Hrest |].
      apply Forall_forall. intros x Hx. apply count_in_keys in Hx.
      destruct Hx as [-> | Hx]; [apply date_compare_gt; exact E |].
      rewrite Forall_forall in Hall. auto.
Qed.

(** What [count_in] holds for a day: one more for the day counted, the
    same for every other day. *)
Lemma count_in_In (k x : Z * Z * Z) (n : nat)
  (groups : list (Z * Z * Z * nat)) :
  StronglySorted date_lt (map fst groups) ->
  In (x, n) (count_in k groups) ->
  (x <> k /\ In (x, n) groups)
  \/ (x = k
      /\ ((exists n0, In (k, n0) groups /\ n = S n0)
          \/ (~ In k (map fst groups) /\ n = 1%nat))).
Proof.
  induction groups as [| [k' n'] rest IH]; simpl; intros Hs Hin.
  - destruct Hin as [[= <- <-] | []]. right. split; [reflexivity |].
    right. split; [intros [] | reflexivity].
  - inversion Hs as [| ? ? Hrest Hall]; subst.
    rewrite Forall_forall in Hall.
    destruct (date_compare k k') eqn:E.
    + apply date_compare_eq in E. subst k'.
      destruct Hin as [[= <- <-] | Hin].
      * right. split; [reflexivity |]. left. exists n'. auto.
      * left. split; [| right; exact Hin].
        intros ->. apply (date_lt_irrefl k). apply Hall.
        apply in_map_iff. exists (k, n). auto.
    + destruct Hin as [[= <- <-] | Hin].
      * right. split; [reflexivity |]. right. split; [| reflexivity].
        intros [Hk | Hk].
        -- simpl in Hk. subst k'. rewrite date_compare_refl in E.
           discriminate.
        -- apply (date_lt_irrefl k).
           eapply date_lt_trans; [exact E | apply Hall; exact Hk].
      * left. split; [| exact Hin]. intros ->.
        destruct Hin as [[= -> ->] | Hin].
        -- rewrite date_compare_refl in E. discriminate.
        -- apply (date_lt_irrefl k).
           eapply date_lt_trans; [exact E |].
           apply Hall. apply in_map_iff. exists (k, n). auto.
    + destruct Hin as [[= <- <-] | Hin].
      * left. split; [| left; reflexivity]. intros ->.
        rewrite date_compare_refl in E. discriminate.
      * destruct (IH Hrest Hin) as [[Hne Hx] | [-> Hk]].
        -- left. auto.
        -- right. split; [reflexivity |].
           destruct Hk as [(n0 & Hn0 & ->) | [Hk ->]].
           ++ left. exists n0. auto.
           ++ right. split; [| reflexivity].
              intros [Hk' | Hk']; [| contradiction].
              simpl in Hk'. subst k'. rewrite date_compare_refl in E.
              discriminate.
Qed.

Lemma days_on_app (k : Z * Z * Z) (l1 l2 : list (Z * Z * Z)) :
  days_on k (l1 ++ l2) = (days_on k l1 + days_on k l2)%nat.
Proof. unfold days_on. rewrite filter_app, length_app. reflexivity. Qed.

Lemma days_on_absent (k : Z * Z * Z) (days : list (Z * Z * Z)) :
  ~ In k days -> days_on k days = 0%nat.
Proof.
  unfold days_on. induction days as [| d days IH]; simpl; [reflexivity |].
  intros H. destruct (date_compare d k) eqn:E.
  - apply date_compare_eq in E. exfalso. apply H. auto.
  - apply IH. intros Hin. apply H. auto.
  - apply IH. intros Hin. apply H. auto.
Qed.

Lemma count_in_counts_of (k : Z * Z * Z) (groups : list (Z * Z * Z * nat))
  (days : list (Z * Z * Z)) :
  counts_of groups days -> counts_of (count_in k groups) (days ++ [k]).
Proof.
  intros (Hs & Hc & Hd & Hsum). unfold counts_of. repeat split.
  - apply count_in_sorted. exact Hs.
  - destruct (count_in_In _ _ _ _ Hs H) as [[_ Hx] | [-> Hk]].
    + apply (Hc _ _ Hx).
    + destruct Hk as [(n0 & _ & ->) | [_ ->]]; lia.
  - rewrite days_on_app.
    destruct (count_in_In _ _ _ _ Hs H) as [[Hne Hx] | [-> Hk]].
    + destruct (Hc _ _ Hx) as [_ ->]. unfold days_on at 3. simpl.
      destruct (date_compare k k0) eqn:E; simpl; try lia.
      apply date_compare_eq in E. congruence.
    + unfold days_on at 2. simpl. rewrite date_compare_refl. simpl.
      destruct Hk as [(n0 & Hn0 & ->) | [Hk ->]].
      * destruct (Hc _ _ Hn0) as [_ ->]. lia.
      * rewrite days_on_absent; [reflexivity |].
        intros Hin. apply Hk. apply Hd. exact Hin.
  - intros d Hin. apply count_in_keys. apply in_app_or in Hin.
    destruct Hin as [Hin | [<- | []]]; auto.
  - rewrite count_in_sum, length_app, Hsum. simpl. lia.
Qed.

(** [groupby(...).size()] counts every day of the list. *)
Lemma groupby_size_counts_of (days : list (Z * Z * Z)) :
  counts_of (groupby_size days) days.
Proof.
  unfold groupby_size.
  assert (H : forall groups done,
             counts_of groups done ->
             counts_of (fold_left (fun g k => count_in k g) days groups)
               (done ++ days)).
  { induction days as [| d days IH]; intros groups done Hc; simpl.
    - rewrite app_nil_r. exact Hc.
    - replace (done ++ d :: days) with ((done ++ [d]) ++ days)
        by (rewrite <- app_assoc; reflexivity).
      apply IH. apply count_in_counts_of. exact Hc. }
  apply (H [] []). unfold counts_of. repeat split; simpl.
  - constructor.
  - destruct H0.
  - destruct H0.
  - intros d [].
Qed.

Lemma traverse_all {A B : Type} (f : A -> option B) (l : list A) :
  (forall a, In a l -> f a <> None) -> exists l', traverse f l = Some l'.
Proof.
  induction l as [| a l IH]; intros H; simpl; [eauto |].
  destruct (f a) as [b |] eqn:E.
  - destruct IH as (l' & Hl); [intros x Hx; apply H; right; exact Hx |].
    rewrite Hl. cbn [bind]. eauto.
  - exfalso. apply (H a); [left; reflexivity | exact E].
Qed.

Lemma tasks_on_days_on (k : Z * Z * Z) (table : list (ResultRow string))
  (dates : list datetime) :
  traverse (fun r => to_datetime (Date_Pacific r)) table = Some dates ->
  tasks_on k table = days_on k (map date_only dates).
Proof.
  unfold tasks_on, days_on. revert dates.
  induction table as [| r table IH]; intros dates H; simpl in H.
  - injection H as <-. reflexivity.
  - destruct (to_datetime (Date_Pacific r)) as [t |] eqn:Et;
      cbn [bind] in H; [| discriminate].
    destruct (traverse _ table) as [ds |]; cbn [bind] in H;
      [| discriminate].
    injection H as <-. cbn [filter map]. rewrite Et. unfold on_day at 1.
    destruct (date_compare (date_only t) k); cbn [List.length];
      [apply (f_equal S) | |]; exact (IH ds eq_refl).
Qed.

(** The text of a row of the table is read back by [pd.to_datetime]. *)
Lemma table_row_readable (gmt7 : datetime -> Z) (pacific : Z -> Z)
  (raterhub : list Visit) (table : list (ResultRow string))
  (total_tasks total_visits : nat) (row : ResultRow string) :
  result_df (map (add_columns gmt7 pacific) raterhub)
  = Results table total_tasks total_visits ->
  In row table ->
  exists ts,
    to_datetime (Date_Pacific row) = Some ts
    /\ Date_Pacific row = strftime ts.
Proof.
  intros H Hrow.
  destruct (result_df_In _ _ _ _ _ _ _ H Hrow)
    as (v & ts & _ & _ & _ & Hts & Hd).
  exists ts. split; [| exact Hd]. rewrite Hd.
  apply to_datetime_valid in Hts. destruct Hts as (Hv & Hb & Hp).
  apply strftime_to_datetime; assumption.
Qed.

Section TasksByDay.

Variable gmt7 : datetime -> Z.
Variable pacific : Z -> Z.

(** X5.  On the table of a run, [tasks_by_day] never raises.  Its days are
    in strictly ascending order, each with the number of rows of the table
    on that day, which is one at least; every day of the table is there;
    and the counts add up to the number of tasks. *)
Theorem tasks_by_day_counts (df : DataFrame) (selected_month : string)
  (selected_year : Z) (table : list (ResultRow string))
  (total_tasks total_visits : nat) :
  extractor gmt7 pacific df selected_month selected_year
  = Results table total_tasks total_visits ->
  exists groups,
    tasks_by_day table = Some groups
    /\ sum_counts groups = total_tasks
    /\ StronglySorted date_lt (map fst groups)
    /\ (forall k n, In (k, n) groups ->
                    (0 < n)%nat /\ n = tasks_on k table)
    /\ (forall row, In row table ->
          exists ts,
            to_datetime (Date_Pacific row) = Some ts
            /\ In (date_only ts) (map fst groups)).
Proof.
  intros H. apply extractor_results in H.
  destruct H as (raterhub & _ & _ & _ & H).
  destruct (traverse_all (fun r => to_datetime (Date_Pacific r)) table)
    as (dates & Hd).
  { intros row Hrow.
    destruct (table_row_readable _ _ _ _ _ _ _ H Hrow) as (ts & -> & _).
    discriminate. }
  pose proof (groupby_size_counts_of (map date_only dates))
    as (Hs & Hc & Hk & Hsum).
  exists (groupby_size (map date_only dates)).
  unfold tasks_by_day. rewrite Hd. cbn [bind].
  split; [reflexivity |]. split; [| split; [exact Hs | split]].
  - rewrite Hsum, length_map.
    pose proof (traverse_Forall2 _ _ _ Hd) as F.
    apply Forall2_length_eq in F. rewrite <- F.
    apply result_df_results in H. destruct H as (_ & _ & _ & -> & _).
    reflexivity.
  - intros k n Hin. rewrite (tasks_on_days_on k _ _ Hd). apply Hc, Hin.
  - intros row Hrow.
    pose proof (traverse_Forall2 _ _ _ Hd) as F.
    destruct (Forall2_In_l _ _ _ _ F Hrow) as (ts & Hts & Hr).
    exists ts. split; [exact Hr |].
    apply Hk. apply in_map. exact Hts.
Qed.

End TasksByDay.

(** ** The calendar *)

Lemma is_leap_spec y :
  Calendar.is_leap y = true
  <-> (y mod 4 = 0 /\ (y mod 100 <> 0 \/ y mod 400 = 0)).
Proof.
  unfold Calendar.is_leap.
  destruct (Z.eqb_spec (y mod 4) 0), (Z.eqb_spec (y mod 100) 0),
    (Z.eqb_spec (y mod 400) 0); simpl; split; intros; try discriminate;
    try reflexivity; try lia.
  all: exfalso; Z.to_euclidean_division_equations; lia.
Qed.

(** [civil_from_days] gives a day that the calendar has. *)
Lemma civil_from_days_valid z :
  let '(y, m, d) := Calendar.civil_from_days z in
  1 <= m <= 12 /\ 1 <= d <= Calendar.days_in_month y m.
Proof.
  unfold Calendar.civil_from_days. cbv zeta.
  set (z' := z + 719468).
  set (era := z' / 146097).
  set (doe := z' - era * 146097).
  assert (Hdoe : 0 <= doe < 146097)
    by (subst doe era; Z.to_euclidean_division_equations; lia).
  set (yoe := (doe - doe / 1460 + doe / 36524 - doe / 146096) / 365).
  set (doy := doe - (365 * yoe + yoe / 4 - yoe / 100)).
  assert (Hy : 0 <= yoe <= 399 /\ 0 <= doy <= 365)
    by (subst yoe doy; Z.to_euclidean_division_equations; lia).
  assert (Hleap : doy = 365 ->
                  (yoe + 1) mod 4 = 0
                  /\ ((yoe + 1) mod 100 <> 0 \/ (yoe + 1) mod 400 = 0))
    by (subst yoe doy; Z.to_euclidean_division_equations; lia).
  set (mp := (5 * doy + 2) / 153).
  assert (Hmp : 0 <= mp <= 11)
    by (subst mp; Z.to_euclidean_division_equations; lia).
  set (d := doy - (153 * mp + 2) / 5 + 1).
  assert (Hd : 1 <= d <= 31)
    by (subst d mp; Z.to_euclidean_division_equations; lia).
  assert (Hm : mp = 0 \/ mp = 1 \/ mp = 2 \/ mp = 3 \/ mp = 4 \/ mp = 5
               \/ mp = 6 \/ mp = 7 \/ mp = 8 \/ mp = 9 \/ mp = 10 \/ mp = 11)
    by lia.
  assert (Hlen : d <= (153 * (mp + 1) + 2) / 5 - (153 * mp + 2) / 5)
    by (subst d mp; Z.to_euclidean_division_equations; lia).
  assert (Hfeb : mp = 11 -> d = doy - 336)
    by (intros E; subst d; rewrite E;
        Z.to_euclidean_division_equations; lia).
  clearbody d mp doy yoe doe era z'.
  destruct (Z.ltb_spec mp 10).
  - destruct (Z.leb_spec (mp + 3) 2); [lia |]. split; [lia |].
    split; [lia |]. unfold Calendar.days_in_month.
    destruct Hm as [E|[E|[E|[E|[E|[E|[E|[E|[E|[E|[E|E]]]]]]]]]]];
      subst mp; try lia; cbn;
        revert Hlen; Z.to_euclidean_division_equations; lia.
  - destruct (Z.leb_spec (mp - 9) 2); [| lia]. split; [lia |].
    split; [lia |]. unfold Calendar.days_in_month.
    destruct Hm as [E|[E|[E|[E|[E|[E|[E|[E|[E|[E|[E|E]]]]]]]]]]];
      subst mp; try lia.
    + cbn. revert Hlen. Z.to_euclidean_division_equations. lia.
    + cbn. specialize (Hfeb eq_refl).
      destruct (Calendar.is_leap (yoe + era * 400 + 1)) eqn:El; [lia |].
      assert (doy <> 365); [| lia].
      intros Hd365. apply Hleap in Hd365.
      assert (Calendar.is_leap (yoe + era * 400 + 1) = true);
        [| congruence].
      apply is_leap_spec.
      revert Hd365. Z.to_euclidean_division_equations. lia.
Qed.

(** [days_from_civil] numbers the day that [civil_from_days] gives. *)
Lemma days_from_civil_from_days z :
  let '(y, m, d) := Calendar.civil_from_days z in
  Calendar.days_from_civil y m d = z.
Proof.
  unfold Calendar.civil_from_days, Calendar.days_from_civil. cbv zeta.
  set (z' := z + 719468).
  set (era := z' / 146097).
  set (doe := z' - era * 146097).
  assert (Hdoe : 0 <= doe < 146097)
    by (subst doe era; Z.to_euclidean_division_equations; lia).
  set (yoe := (doe - doe / 1460 + doe / 36524 - doe / 146096) / 365).
  set (doy := doe - (365 * yoe + yoe / 4 - yoe / 100)).
  assert (Hy : 0 <= yoe <= 399 /\ 0 <= doy <= 365)
    by (subst yoe doy; Z.to_euclidean_division_equations; lia).
  set (mp := (5 * doy + 2) / 153).
  assert (Hmp : 0 <= mp <= 11)
    by (subst mp; Z.to_euclidean_division_equations; lia).
  destruct (Z.ltb_spec mp 10).
  - destruct (Z.leb_spec (mp + 3) 2); [lia |].
    replace (mp + 3 - 3) with mp by lia.
    replace ((yoe + era * 400) / 400) with era
      by (Z.to_euclidean_division_equations; lia).
    replace (yoe + era * 400 - era * 400) with yoe by lia.
    subst doy doe z'. lia.
  - destruct (Z.leb_spec (mp - 9) 2); [| lia].
    replace (mp - 9 + 9) with mp by lia.
    replace (yoe + era * 400 + 1 - 1) with (yoe + era * 400) by lia.
    replace ((yoe + era * 400) / 400) with era
      by (Z.to_euclidean_division_equations; lia).
    replace (yoe + era * 400 - era * 400) with yoe by lia.
    subst doy doe z'. lia.
Qed.

(** ** Seconds and wall-clock time *)

Lemma datetime_of_seconds_spec (s : Z) :
  seconds_of (datetime_of_seconds s) = s
  /\ valid_datetime (datetime_of_seconds s) = true
  /\ 0 <= hour (datetime_of_seconds s) <= 23
  /\ 0 <= minute (datetime_of_seconds s) <= 59
  /\ 0 <= second (datetime_of_seconds s) <= 59.
Proof.
  unfold datetime_of_seconds, seconds_of, valid_datetime. cbv zeta.
  pose proof (civil_from_days_valid (s / 86400)) as Hv.
  pose proof (days_from_civil_from_days (s / 86400)) as Hr.
  destruct (Calendar.civil_from_days (s / 86400)) as [[y m] d].
  cbn [year month day hour minute second].
  assert (Hh : 0 <= s mod 86400 / 3600 <= 23)
    by (Z.to_euclidean_division_equations; lia).
  assert (Hmi : 0 <= s mod 86400 mod 3600 / 60 <= 59)
    by (Z.to_euclidean_division_equations; lia).
  assert (Hse : 0 <= s mod 86400 mod 60 <= 59)
    by (Z.to_euclidean_division_equations; lia).
  split; [rewrite Hr; Z.to_euclidean_division_equations; lia |].
  split; [| lia].
  repeat (apply andb_true_iff; split); apply Z.leb_le; lia.
Qed.

(** The year of an instant within a day or so of the range of pandas. *)
Lemma datetime_of_seconds_year (s : Z) :
  -9223500000 <= s <= 9223500000 ->
  1600 <= year (datetime_of_seconds s) <= 2400.
Proof.
  intros H. unfold datetime_of_seconds, Calendar.civil_from_days. cbv zeta.
  set (z' := s / 86400 + 719468).
  set (era := z' / 146097).
  set (doe := z' - era * 146097).
  assert (Hdoe : 0 <= doe < 146097)
    by (subst doe era; Z.to_euclidean_division_equations; lia).
  assert (Hera : 4 <= era <= 5)
    by (subst era z'; Z.to_euclidean_division_equations; lia).
  set (yoe := (doe - doe / 1460 + doe / 36524 - doe / 146096) / 365).
  set (doy := doe - (365 * yoe + yoe / 4 - yoe / 100)).
  assert (Hy : 0 <= yoe <= 399 /\ 0 <= doy <= 365)
    by (subst yoe doy; Z.to_euclidean_division_equations; lia).
  clearbody yoe doy era.
  cbn [year].
  match goal with
  | |- context [if ?c then _ else _] => destruct c
  end; lia.
Qed.

(** The days of the years 2007 to 2037. *)
Lemma days_from_civil_range (y m d : Z) :
  2007 <= y <= 2037 -> 1 <= m <= 12 -> 1 <= d <= 31 ->
  13000 <= Calendar.days_from_civil y m d <= 25000.
Proof.
  intros Hy Hm Hd. unfold Calendar.days_from_civil. cbv zeta.
  destruct (Z.leb_spec m 2); Z.to_euclidean_division_equations; lia.
Qed.

(** ** [strptime] on a date and a time of day *)

Lemma field_pad2 (lo hi lo1 n : Z) (r : string) :
  0 <= n < 100 -> lo <= n <= hi ->
  field lo hi lo1 (Chars.pad2 n ++ r) = Some (n, r).
Proof.
  intros Hn Hr. unfold field. rewrite two_digits_pad2 by assumption.
  reflexivity.
Qed.

Lemma spaces1_pad2 (n : Z) (r : string) :
  spaces1 (String " " (Chars.pad2 n ++ r)) = Some (Chars.pad2 n ++ r)%string.
Proof.
  unfold Chars.pad2. cbn [append spaces1 skip_spaces].
  replace (Chars.is_space " ") with true by reflexivity.
  rewrite digit_is_not_space; [reflexivity |].
  apply digit_char_is_digit. Z.to_euclidean_division_equations. lia.
Qed.

(** [strptime] reads the day of a time stamp of pandas followed by a time
    of day on [HH:MM:SS]. *)
Lemma strptime_date_time (date : datetime) (h mi se : Z) :
  valid_datetime date = true -> printable date -> 1 <= year date ->
  0 <= h <= 23 -> 0 <= mi <= 59 -> 0 <= se <= 59 ->
  strptime (strftime_date date ++ " " ++ clock_text h mi se)
  = Ok (at_time date h mi se).
Proof.
  intros Hv (Hy & Hm & Hd & _) Hy1 Hh Hmi Hse.
  unfold valid_datetime in Hv.
  repeat (apply andb_true_iff in Hv; destruct Hv as [Hv ?]).
  repeat match goal with
         | H : (_ <=? _) = true |- _ => apply Z.leb_le in H
         end.
  assert (Hday : day date <= 31).
  { pose proof (Calendar.days_in_month (year date) (month date)) as x.
    assert (Calendar.days_in_month (year date) (month date) <= 31);
      [| lia].
    unfold Calendar.days_in_month.
    repeat match goal with
           | |- context [if ?c then _ else _] => destruct c
           end; lia. }
  assert (Hmatch :
            strptime_match (strftime_date date ++ " " ++ clock_text h mi se)
            = Some (at_time date h mi se, EmptyString)).
  { unfold strptime_match, strftime_date, clock_text.
    rewrite !string_app_assoc.
    rewrite four_digits_pad4 by assumption. cbn [bind append].
    rewrite expect_same. cbn [bind].
    rewrite field_pad2 by lia. cbn [bind append].
    rewrite expect_same. cbn [bind].
    rewrite field_pad2 by lia. cbn [bind].
    rewrite spaces1_pad2. cbn [bind].
    rewrite field_pad2 by lia. cbn [bind append].
    rewrite expect_same. cbn [bind].
    rewrite field_pad2 by lia. cbn [bind append].
    rewrite expect_same. cbn [bind].
    rewrite <- (string_app_nil_r (Chars.pad2 se)).
    rewrite field_pad2 by lia. reflexivity. }
  unfold strptime. rewrite Hmatch. unfold at_time.
  cbn [year month day second].
  destruct (Z.eqb_spec (year date) 0); [lia |].
  destruct (Z.ltb_spec (Calendar.days_in_month (year date) (month date))
              (day date)); [lia |].
  destruct (Z.ltb_spec 59 se); [lia | reflexivity].
Qed.

Lemma days_in_month_le_31 (y m : Z) : Calendar.days_in_month y m <= 31.
Proof.
  unfold Calendar.days_in_month.
  repeat match goal with
         | |- context [if ?c then _ else _] => destruct c
         end; lia.
Qed.

Lemma valid_datetime_bounds (t : datetime) :
  valid_datetime t = true ->
  1 <= month t <= 12 /\ 1 <= day t <= 31
  /\ day t <= Calendar.days_in_month (year t) (month t)
  /\ hour t <= 23 /\ minute t <= 59 /\ second t <= 59.
Proof.
  unfold valid_datetime. intros Hv.
  repeat (apply andb_true_iff in Hv; destruct Hv as [Hv ?]).
  repeat match goal with
         | H : (_ <=? _) = true |- _ => apply Z.leb_le in H
         end.
  pose proof (days_in_month_le_31 (year t) (month t)). lia.
Qed.

(** ** Conversion with the zone tables of 2007 to 2037 *)

Lemma us_pacific_cases (utc : Z) :
  us_pacific utc = - (7 * 3600) \/ us_pacific utc = - (8 * 3600).
Proof.
  unfold us_pacific.
  destruct (Calendar.civil_from_days (utc / 86400)) as [[y m] d].
  match goal with
  | |- context [if ?c then _ else _] => destruct c
  end; auto.
Qed.

Lemma convert_to_pacific_date_time (date : datetime) (h mi se : Z) :
  valid_datetime date = true -> printable date ->
  2007 <= year date <= 2037 ->
  0 <= h <= 23 -> 0 <= mi <= 59 -> 0 <= se <= 59 ->
  exists p,
    convert_to_pacific bangkok us_pacific date (Some (clock_text h mi se))
    = strftime p
    /\ to_datetime (strftime p) = Some p
    /\ let utc := seconds_of (at_time date h mi se) - 7 * 3600 in
       seconds_of p = utc + us_pacific utc
       /\ (us_pacific utc = - (7 * 3600) \/ us_pacific utc = - (8 * 3600)).
Proof.
  intros Hv Hp Hy Hh Hmi Hse.
  pose proof (valid_datetime_bounds date Hv) as (Hm & Hd & _).
  unfold convert_to_pacific. cbn [str_of_cell]. cbv zeta.
  rewrite strptime_date_time by (assumption || lia).
  unfold bangkok.
  set (utc := seconds_of (at_time date h mi se) - 7 * 3600).
  pose proof (us_pacific_cases utc) as Hoff.
  assert (Hutc : 13000 * 86400 - 7 * 3600 <= utc
                 <= 25000 * 86400 + 86399 - 7 * 3600).
  { subst utc. unfold seconds_of, at_time.
    cbn [year month day hour minute second].
    pose proof (days_from_civil_range (year date) (month date) (day date)
                  Hy Hm Hd). lia. }
  set (s := utc + us_pacific utc).
  assert (Hs : 13000 * 86400 - 15 * 3600 <= s <= 25000 * 86400 + 86399)
    by (subst s; lia).
  pose proof (datetime_of_seconds_spec s) as (Hsec & Hval & Hhr & Hmn & Hsc).
  pose proof (datetime_of_seconds_year s ltac:(lia)) as Hyear.
  exists (datetime_of_seconds s).
  destruct (Z.leb_spec 1 (year (datetime_of_seconds s))); [| lia].
  destruct (Z.leb_spec (year (datetime_of_seconds s)) 9999); [| lia].
  cbn [andb]. split; [reflexivity |]. split; [| split; assumption].
  apply strftime_to_datetime.
  - exact Hval.
  - unfold timestamp_in_bounds. rewrite Hsec.
    apply andb_true_iff. split; apply Z.leb_le; lia.
  - pose proof (valid_datetime_bounds _ Hval). unfold printable. lia.
Qed.

(** X6.  With the zone tables of 2007 to 2037, a day of those years that
    pandas holds and a time of day on [HH:MM:SS] always convert:
    [convert_to_pacific] returns the rendering of a time stamp that
    [pd.to_datetime] reads back, and that is the same instant, the
    Bangkok reading being seven hours ahead of UTC and the Pacific
    reading seven or eight hours behind. *)
Theorem convert_to_pacific_same_instant (date : datetime) (h mi se : Z) :
  valid_datetime date = true -> printable date ->
  2007 <= year date <= 2037 ->
  0 <= h <= 23 -> 0 <= mi <= 59 -> 0 <= se <= 59 ->
  exists p,
    convert_to_pacific bangkok us_pacific date (Some (clock_text h mi se))
    = strftime p
    /\ to_datetime (strftime p) = Some p
    /\ let utc := seconds_of (at_time date h mi se) - 7 * 3600 in
       seconds_of p = utc + us_pacific utc
       /\ (us_pacific utc = - (7 * 3600) \/ us_pacific utc = - (8 * 3600)).
Proof. exact (convert_to_pacific_date_time date h mi se). Qed.

(** ** When a run fails over a time *)

Lemma traverse_none_inv {A B : Type} (f : A -> option B) (l : list A) :
  traverse f l = None -> exists a, In a l /\ f a = None.
Proof.
  induction l as [| a l IH]; simpl; [discriminate |].
  destruct (f a) as [b |] eqn:E; cbn [bind]; [| exists a; auto].
  destruct (traverse f l); cbn [bind]; [discriminate |].
  intros _. destruct (IH eq_refl) as (x & Hx & Hf). exists x. auto.
Qed.

Lemma result_df_failed_iff (gmt7 : datetime -> Z) (pacific : Z -> Z)
  (raterhub : list Visit) :
  result_df (map (add_columns gmt7 pacific) raterhub) = Failed
  <-> exists v,
        In v raterhub /\ has_task_id v = true
        /\ to_datetime
             (convert_to_pacific gmt7 pacific (visit_date v) (visit_time v))
           = None.
Proof.
  split.
  - intros H.
    pose proof (result_df_cases (map (add_columns gmt7 pacific) raterhub))
      as C.
    rewrite H in C. apply traverse_none_inv in C.
    destruct C as (c & Hc & Hnone).
    unfold project_and_clean in Hc. apply filter_map_In in Hc.
    destruct Hc as (r & Hr & Hd).
    apply in_map_iff in Hr. destruct Hr as (v & <- & Hv).
    unfold dropna in Hd. cbn [add_columns task_id visit pacific_time] in Hd.
    destruct (extract_task_id (visit_url v)) as [t |] eqn:Et;
      [| discriminate].
    injection Hd as <-. unfold set_date in Hnone.
    cbn [Date_Pacific] in Hnone.
    exists v. split; [exact Hv |]. split.
    + unfold has_task_id. rewrite Et. reflexivity.
    + destruct (to_datetime _); [discriminate | reflexivity].
  - intros (v & Hv & Hid & Hnone).
    exact (unreadable_time_fails _ _ _ _ Hv Hid Hnone).
Qed.

(** The day of a time stamp of pandas followed by the text of a missing
    time of day is not what [strptime] expects. *)
Lemma strptime_date_nan (date : datetime) :
  valid_datetime date = true -> printable date ->
  strptime (strftime_date date ++ " nan")
  = Raised ("time data '" ++ strftime_date date
            ++ " nan' does not match format '%Y-%m-%d %H:%M:%S'").
Proof.
  intros Hv (Hy & Hm & Hd & _).
  pose proof (valid_datetime_bounds date Hv) as (Hm' & Hd' & _).
  assert (Hmatch : strptime_match (strftime_date date ++ " nan") = None).
  { unfold strptime_match, strftime_date.
    rewrite !string_app_assoc.
    rewrite four_digits_pad4 by assumption. cbn [bind append].
    rewrite expect_same. cbn [bind].
    rewrite field_pad2 by lia. cbn [bind append].
    rewrite expect_same. cbn [bind].
    rewrite field_pad2 by lia. reflexivity. }
  unfold strptime. rewrite Hmatch. reflexivity.
Qed.

Section FailedRuns.

Variable gmt7 : datetime -> Z.
Variable pacific : Z -> Z.

(** X8.  Once the columns are there, the dates, written alike, are read
    and a row of the selected month mentions RaterHub, a run fails
    exactly when such a row has a task identifier and a Pacific time that
    is not a date; this is so whenever [strptime] rejects the date and
    time of such a row, whatever the other rows are. *)
Theorem run_fails_iff_unreadable_time (df : DataFrame)
  (selected_month : string) (selected_year : Z) (raterhub : list Visit) :
  has_required_columns df = true ->
  date_only_cells (records df) ->
  select_raterhub df selected_month selected_year = Some raterhub ->
  raterhub <> [] ->
  (extractor gmt7 pacific df selected_month selected_year = Failed
   <-> exists v,
         In v raterhub /\ has_task_id v = true
         /\ to_datetime
              (convert_to_pacific gmt7 pacific (visit_date v) (visit_time v))
            = None)
  /\ forall v reason,
       In v raterhub -> has_task_id v = true ->
       strptime (strftime_date (visit_date v) ++ " "
                 ++ str_of_cell (visit_time v))
       = Raised reason ->
       extractor gmt7 pacific df selected_month selected_year = Failed.
Proof.
  intros Hcols _ Hsel _.
  assert (Hiff : extractor gmt7 pacific df selected_month selected_year
                 = Failed
                 <-> exists v,
                       In v raterhub /\ has_task_id v = true
                       /\ to_datetime
                            (convert_to_pacific gmt7 pacific (visit_date v)
                               (visit_time v)) = None).
  { unfold extractor. rewrite Hcols, Hsel. cbn [negb].
    destruct raterhub as [| v0 l].
    - split; [discriminate | intros (v & [] & _)].
    - apply result_df_failed_iff. }
  split; [exact Hiff |].
  intros v reason Hv Hid Hs. apply Hiff. exists v.
  split; [exact Hv |]. split; [exact Hid |].
  unfold convert_to_pacific. cbv zeta. rewrite Hs.
  apply placeholder_not_a_date.
Qed.

(** X9.  A missing time of day never converts: for a day of the years
    1000 to 9999, whose year [strftime] writes on four digits,
    [convert_to_pacific] returns the placeholder that quotes the day
    followed by "nan", whatever the zone tables are. *)
Theorem convert_to_pacific_missing_time (date : datetime) :
  valid_datetime date = true -> printable date -> 1000 <= year date ->
  convert_to_pacific gmt7 pacific date None
  = ("Error converting time: time data '" ++ strftime_date date
     ++ " nan' does not match format '%Y-%m-%d %H:%M:%S'")%string.
Proof.
  intros Hv Hp _. unfold convert_to_pacific. cbn [str_of_cell]. cbv zeta.
  change (" " ++ "nan")%string with " nan".
  rewrite (strptime_date_nan date Hv Hp). reflexivity.
Qed.

End FailedRuns.

(** ** Times of day on [HH:MM:SS] *)

(** X7.  With the zone tables of 2007 to 2037 and a year among them
    selected, a run shows a table when the dates, written alike, are
    read, a row of the month mentions RaterHub, and those of these rows
    that have a task identifier all have a time of day on [HH:MM:SS]. *)
Theorem well_formed_times_show_a_table (df : DataFrame)
  (selected_month : string) (selected_year : Z) (raterhub : list Visit) :
  has_required_columns df = true ->
  date_only_cells (records df) ->
  select_raterhub df selected_month selected_year = Some raterhub ->
  raterhub <> [] ->
  2007 <= selected_year <= 2037 ->
  (forall v, In v raterhub -> has_task_id v = true ->
     exists h mi se,
       visit_time v = Some (clock_text h mi se)
       /\ 0 <= h <= 23 /\ 0 <= mi <= 59 /\ 0 <= se <= 59) ->
  exists table,
    run df selected_month selected_year
    = Results table (List.length table)
        (List.length (filter has_task_id raterhub)).
Proof.
  intros Hcols _ Hsel Hne Hyear Htimes.
  unfold run, extractor. rewrite Hcols, Hsel. cbn [negb].
  destruct raterhub as [| v0 l] eqn:Er; [contradiction |]. rewrite <- Er in *.
  rewrite <- (project_and_clean_length bangkok us_pacific).
  apply result_df_total. intros c Hc Hnone.
  unfold project_and_clean in Hc. apply filter_map_In in Hc.
  destruct Hc as (r & Hr & Hd).
  apply in_map_iff in Hr. destruct Hr as (v & <- & Hv).
  unfold dropna in Hd. cbn [add_columns task_id visit pacific_time] in Hd.
  destruct (extract_task_id (visit_url v)) as [t |] eqn:Et; [| discriminate].
  injection Hd as <-. cbn [Date_Pacific] in Hnone.
  destruct (Htimes v Hv) as (h & mi & se & Htime & Hh & Hmi & Hse).
  { unfold has_task_id. rewrite Et. reflexivity. }
  destruct (select_raterhub_In _ _ _ _ _ Hsel Hv)
    as (hr & s & i & _ & _ & _ & Hdate & _ & Hy & _).
  apply to_datetime_valid in Hdate. destruct Hdate as (Hval & _ & Hpr).
  destruct (convert_to_pacific_date_time (visit_date v) h mi se)
    as (p & Hconv & Hread & _); try assumption; try lia.
  rewrite Htime, Hconv, Hread in Hnone. discriminate.
Qed.


(** ** The further theorems at work on the sample tables *)

Lemma statistics_consistent_witness :
  run busy_month "March" 2024 = Results busy_table 3 5
  /\ exists raterhub,
       select_raterhub busy_month "March" 2024 = Some raterhub
       /\ let rows :=
            project_and_clean
              (map (add_columns bangkok us_pacific) raterhub) in
          (3 = List.length busy_table)%nat
          /\ (5 = List.length rows)%nat
          /\ (3 <= 5)%nat
          /\ ((3 = 5)%nat <-> NoDup (map Task_ID rows))
          /\ match duplicates_removed 3 5 with
             | Some k => (0 < k)%nat /\ (3 + k = 5)%nat
             | None => (3 = 5)%nat
             end.
Proof.
  assert (Hrun : run busy_month "March" 2024 = Results busy_table 3 5)
    by (vm_compute; reflexivity).
  split; [exact Hrun |].
  exact (statistics_consistent bangkok us_pacific _ _ _ _ _ _ Hrun).
Defined.

Lemma table_is_deduplicated_rows_witness :
  run busy_month "March" 2024 = Results busy_table 3 5
  /\ exists raterhub,
       select_raterhub busy_month "March" 2024 = Some raterhub
       /\ Permutation busy_table
            (drop_duplicates Task_ID
               (project_and_clean
                  (map (add_columns bangkok us_pacific) raterhub))).
Proof.
  assert (Hrun : run busy_month "March" 2024 = Results busy_table 3 5)
    by (vm_compute; reflexivity).
  split; [exact Hrun |].
  exact (table_is_deduplicated_rows bangkok us_pacific _ _ _ _ _ _ Hrun).
Defined.

Lemma skipped_row_changes_nothing_witness :
  run (history [march_visit; april_visit]) "March" 2024
  = run (history [march_visit]) "March" 2024.
Proof.
  apply (skipped_row_changes_nothing bangkok us_pacific required_columns
           [march_visit] [] april_visit "March" 2024).
  { intros q s [<- | [<- | []]] [= <-]; eexists;
      (split; [vm_compute; reflexivity | vm_compute; reflexivity]). }
  { exists march_visit. split; [left; reflexivity | reflexivity]. }
  right. exists "2024-04-02", (mkDatetime 2024 4 2 0 0 0).
  split; [reflexivity |]. split; [reflexivity |].
  left. intros i Hi. vm_compute in Hi. injection Hi as <-.
  cbn. discriminate.
Defined.

Lemma row_order_keeps_summary_witness :
  same_summary
    (run (history [march_visit; april_visit]) "April" 2024)
    (run (history [april_visit; march_visit]) "April" 2024).
Proof.
  apply (row_order_keeps_summary bangkok us_pacific required_columns
           [march_visit; april_visit] [april_visit; march_visit]
           "April" 2024).
  - intros q s [<- | [<- | []]] [= <-]; eexists;
      (split; [vm_compute; reflexivity | vm_compute; reflexivity]).
  - apply perm_swap.
Defined.

Lemma tasks_by_day_counts_witness :
  run busy_month "March" 2024 = Results busy_table 3 5
  /\ exists groups,
       tasks_by_day busy_table = Some groups
       /\ sum_counts groups = 3%nat
       /\ StronglySorted date_lt (map fst groups)
       /\ (forall k n, In (k, n) groups ->
                       (0 < n)%nat /\ n = tasks_on k busy_table)
       /\ (forall row, In row busy_table ->
             exists ts,
               to_datetime (Date_Pacific row) = Some ts
               /\ In (date_only ts) (map fst groups)).
Proof.
  assert (Hrun : run busy_month "March" 2024 = Results busy_table 3 5)
    by (vm_compute; reflexivity).
  split; [exact Hrun |].
  exact (tasks_by_day_counts bangkok us_pacific _ _ _ _ _ _ Hrun).
Defined.

Lemma convert_to_pacific_same_instant_witness :
  exists p,
    convert_to_pacific bangkok us_pacific (mkDatetime 2024 3 15 0 0 0)
      (Some (clock_text 9 0 0))
    = strftime p
    /\ to_datetime (strftime p) = Some p
    /\ let utc :=
         seconds_of (at_time (mkDatetime 2024 3 15 0 0 0) 9 0 0) - 7 * 3600 in
       seconds_of p = utc + us_pacific utc
       /\ (us_pacific utc = - (7 * 3600) \/ us_pacific utc = - (8 * 3600)).
Proof.
  apply (convert_to_pacific_same_instant (mkDatetime 2024 3 15 0 0 0) 9 0 0);
    try reflexivity; try (cbn; lia).
  unfold printable. cbn. lia.
Defined.

Lemma well_formed_times_show_a_table_witness :
  exists table,
    run one_visit "March" 2024
    = Results table (List.length table)
        (List.length (filter has_task_id one_visit_raterhub)).
Proof.
  apply (well_formed_times_show_a_table one_visit "March" 2024
           one_visit_raterhub).
  - reflexivity.
  - intros q s [<- | []] [= <-]. eexists.
    split; [vm_compute; reflexivity | vm_compute; reflexivity].
  - vm_compute. reflexivity.
  - discriminate.
  - lia.
  - intros v [<- | []] _. exists 9, 0, 0.
    split; [reflexivity | lia].
Defined.

Lemma run_fails_iff_unreadable_time_witness :
  run malformed_time "March" 2024 = Failed.
Proof.
  assert (Hd : date_only_cells (records malformed_time)).
  { intros q s [<- | [<- | []]] [= <-]; eexists;
      (split; [vm_compute; reflexivity | vm_compute; reflexivity]). }
  assert (Hn : malformed_time_raterhub <> []) by discriminate.
  apply (proj2 (run_fails_iff_unreadable_time bangkok us_pacific
                  malformed_time "March" 2024 malformed_time_raterhub
                  eq_refl Hd ltac:(vm_compute; reflexivity) Hn)
           (mkVisit (mkDatetime 2024 3 16 0 0 0) (Some "9am")
              "https://raterhub.com/x?taskIds=2")
           "time data '2024-03-16 9am' does not match format '%Y-%m-%d %H:%M:%S'").
  - right. left. reflexivity.
  - vm_compute. reflexivity.
  - vm_compute. reflexivity.
Defined.

Lemma convert_to_pacific_missing_time_witness :
  convert_to_pacific bangkok us_pacific (mkDatetime 2024 3 15 0 0 0) None
  = "Error converting time: time data '2024-03-15 nan' does not match format '%Y-%m-%d %H:%M:%S'".
Proof.
  apply (convert_to_pacific_missing_time bangkok us_pacific
           (mkDatetime 2024 3 15 0 0 0)).
  - reflexivity.
  - unfold printable. cbn. lia.
  - cbn. lia.
Defined.

